(** * libfbc: the feedback controller core of libblrs (fbc.c)

    A shallow embedding of [src/libfbc/src/fbc.c].  C integers are values
    of [Z] with the wrap-around of the 32-bit [int] / [unsigned int] written
    out; the controller structure is a record; the two file-level statics of
    the stall detector are a record that is threaded through every call;
    the injected callbacks act on an abstract world [W] (sensor, actuator,
    clock, control-law data).  A call takes the controller, the statics and
    the world and returns its result with what it changed.  The loop of
    fbcRunCompletion, which need not end, runs on fuel, and the endless
    loop of [_fbcTask] is given by its state after a number of turns.
    fbcRunParallel, which only hands [_fbcTask] to the scheduler, is not
    modelled. *)

From Stdlib Require Import ZArith List Bool Lia.
Import ListNotations.
Local Open Scope Z_scope.

(** ** C integer arithmetic *)

Module CInt.

(** Conversion to [unsigned int]. *)
Definition to_uint (z : Z) : Z := z mod 2 ^ 32.

(** Conversion to (two's complement) [int]. *)
Definition to_int (z : Z) : Z := (z + 2 ^ 31) mod 2 ^ 32 - 2 ^ 31.

(** [abs] of <stdlib.h>, with an [int] result. *)
Definition c_abs (z : Z) : Z := to_int (Z.abs z).

(** Conversion to [unsigned long] of the given width. *)
Definition to_ulong (bits z : Z) : Z := z mod 2 ^ bits.

(** A C truth value as an [int]. *)
Definition of_bool (b : bool) : Z := if b then 1 else 0.

End CInt.
Import CInt.

(** ** The platform: what fbc.h and the PROS API provide

    fbc.h and the PROS headers are not part of the sources, so the macros
    and API functions that fbc.c uses are taken as parameters. *)

Record platform (W : Type) : Type := {
  (* the value of the macro FBC_STALL *)
  FBC_STALL : Z;
  (* the value of the macro FBC_LOOP_INTERVAL *)
  FBC_LOOP_INTERVAL : Z;
  (* the width of unsigned long, in bits *)
  ulong_bits : Z;
  (* the macro CUR_TIME(): the time read and the world after the reading *)
  CUR_TIME : W -> Z * W;
  (* millis() *)
  millis : W -> Z * W;
  (* taskDelayUntil(&now, interval): the new value of now and the world
     after the wait *)
  taskDelayUntil : Z -> Z -> W -> Z * W
}.

Arguments FBC_STALL {W} _.
Arguments FBC_LOOP_INTERVAL {W} _.
Arguments ulong_bits {W} _.
Arguments CUR_TIME {W} _ _.
Arguments millis {W} _ _.
Arguments taskDelayUntil {W} _ _ _ _.

(** ** The data model *)

(** The statics [_prev] and [_count] of fbc.c (lines 24-25). *)
Record stall_hist : Type := { _prev : Z; _count : Z }.

(** Their initial values. *)
Definition stall_hist_init : stall_hist := {| _prev := 0; _count := 0 |}.

(** The data members of [fbc_t] that fbc.c reads or writes.  The structure
    is declared in fbc.h, which is not part of the sources; each member has
    the type that fbc.c uses it at: [goal], the dead-band bounds,
    [acceptableTolerance] and [output] are [int] (as the parameters of
    fbcInit), [acceptableConfidence] and the counter [_confidence] are
    [unsigned int], [_prevExecution] holds what [CUR_TIME()] returns.  A
    callback that receives the controller pointer sees these members; the
    callbacks themselves act on the world only. *)
Record fbc_fields : Type := {
  goal : Z;
  neg_deadband : Z;
  pos_deadband : Z;
  acceptableTolerance : Z;
  acceptableConfidence : Z;
  _confidence : Z;
  _prevExecution : Z;
  output : Z
}.

Section Controller.

Context {W : Type}.

(** What the [stallDetect] pointer can hold: the address of
    [fbcStallDetect] itself, or a function of the caller. *)
Inductive stall_fn : Type :=
  | builtin_stallDetect
  | custom_stallDetect (f : fbc_fields -> W -> bool * W).

(** [fbc_t]: the callbacks and the data members.  A null function pointer
    is [None]. *)
Record fbc_t : Type := {
  move : Z -> W -> W;
  sense : W -> Z * W;
  resetSense : option (W -> W);
  stallDetect : option stall_fn;
  compute : fbc_fields -> Z -> W -> Z * W;
  resetController : option (fbc_fields -> W -> W);
  fields : fbc_fields
}.

Definition set_fields (fbc : fbc_t) (d : fbc_fields) : fbc_t :=
  {| move := move fbc; sense := sense fbc; resetSense := resetSense fbc;
     stallDetect := stallDetect fbc; compute := compute fbc;
     resetController := resetController fbc; fields := d |}.

Definition set_goal (d : fbc_fields) (v : Z) : fbc_fields :=
  {| goal := v; neg_deadband := neg_deadband d;
     pos_deadband := pos_deadband d;
     acceptableTolerance := acceptableTolerance d;
     acceptableConfidence := acceptableConfidence d;
     _confidence := _confidence d; _prevExecution := _prevExecution d;
     output := output d |}.

Definition set_confidence (d : fbc_fields) (v : Z) : fbc_fields :=
  {| goal := goal d; neg_deadband := neg_deadband d;
     pos_deadband := pos_deadband d;
     acceptableTolerance := acceptableTolerance d;
     acceptableConfidence := acceptableConfidence d;
     _confidence := v; _prevExecution := _prevExecution d;
     output := output d |}.

Definition set_prevExecution (d : fbc_fields) (v : Z) : fbc_fields :=
  {| goal := goal d; neg_deadband := neg_deadband d;
     pos_deadband := pos_deadband d;
     acceptableTolerance := acceptableTolerance d;
     acceptableConfidence := acceptableConfidence d;
     _confidence := _confidence d; _prevExecution := v;
     output := output d |}.

(** ** fbcStallDetect (lines 26-49) *)

(** [min_stuck]: lines 27-28. *)
Definition min_stuck (d : fbc_fields) : Z :=
  let m := to_uint (Z.shiftr (acceptableTolerance d) 3) in
  if m <? 1 then 1 else m.

(** [delta] of line 30 for the sensor reading [s]. *)
Definition stall_delta (h : stall_hist) (s : Z) : Z :=
  to_uint (c_abs (to_int (s - _prev h))).

(** The test of line 32. *)
Definition at_deadband (d : fbc_fields) : bool :=
  (output d =? neg_deadband d) || (output d =? pos_deadband d).

(** [_count] after lines 36-39. *)
Definition next_count (d : fbc_fields) (h : stall_hist) (s : Z) : Z :=
  if stall_delta h s <? min_stuck d then to_uint (_count h + 1) else 0.

Definition fbcStallDetect (fbc : fbc_t) (h : stall_hist) (w : W)
  : bool * stall_hist * W :=
  let d := fields fbc in
  let min_count := acceptableConfidence d in
  let '(s1, w1) := sense fbc w in
  if at_deadband d then
    (false, {| _prev := _prev h; _count := 0 |}, w1)
  else
    let count1 := next_count d h s1 in
    let '(s2, w2) := sense fbc w1 in
    let stall := min_count <? count1 in
    if stall then (true, {| _prev := 0; _count := 0 |}, w2)
    else (false, {| _prev := s2; _count := count1 |}, w2).

(** ** fbcReset (lines 66-71) and fbcInit (lines 51-64) *)

Definition fbcReset (fbc : fbc_t) (w : W) : fbc_t * W :=
  let d1 := set_confidence (fields fbc) 0 in
  let w1 := match resetSense fbc with Some f => f w | None => w end in
  let w2 := match resetController fbc with
            | Some f => f d1 w1
            | None => w1
            end in
  (set_fields fbc (set_goal d1 0), w2).

(** [fbc] is the structure as the caller hands it in: fbcInit leaves the
    members it does not assign as they are. *)
Definition fbcInit (fbc : fbc_t) (move' : Z -> W -> W)
    (sense' : W -> Z * W) (resetSense' : option (W -> W))
    (stallDetect' : option stall_fn)
    (neg_deadband' pos_deadband' acceptableTolerance'
     acceptableConfidence' : Z) (w : W) : fbc_t * W :=
  let d := fields fbc in
  fbcReset
    {| move := move'; sense := sense'; resetSense := resetSense';
       stallDetect := stallDetect'; compute := compute fbc;
       resetController := None;
       fields :=
         {| goal := goal d; neg_deadband := neg_deadband';
            pos_deadband := pos_deadband';
            acceptableTolerance := acceptableTolerance';
            acceptableConfidence := acceptableConfidence';
            _confidence := _confidence d;
            _prevExecution := _prevExecution d; output := output d |} |}
    w.

Section WithPlatform.

Variable P : platform W.

(** ** fbcSetGoal (lines 73-79); the handle may be null *)

Definition fbcSetGoal (fbc : option fbc_t) (new_goal : Z) (w : W)
  : bool * option fbc_t * W :=
  match fbc with
  | None => (false, None, w)
  | Some c =>
      if goal (fields c) =? new_goal then (true, Some c, w)
      else
        let '(t, w1) := CUR_TIME P w in
        (true,
         Some (set_fields c
                 (set_prevExecution (set_goal (fields c) new_goal) t)),
         w1)
  end.

(** ** fbcIsConfident (lines 81-85) *)

Definition call_stallDetect (f : stall_fn) (fbc : fbc_t)
    (h : stall_hist) (w : W) : bool * stall_hist * W :=
  match f with
  | builtin_stallDetect => fbcStallDetect fbc h w
  | custom_stallDetect g => let '(b, w1) := g (fields fbc) w in (b, h, w1)
  end.

Definition fbcIsConfident (fbc : fbc_t) (h : stall_hist) (w : W)
  : Z * stall_hist * W :=
  let out :=
    of_bool (acceptableConfidence (fields fbc) <=? _confidence (fields fbc))
  in
  match stallDetect fbc with
  | None => (out, h, w)
  | Some f =>
      let '(b, h1, w1) := call_stallDetect f fbc h w in
      ((if b then FBC_STALL P else out), h1, w1)
  end.

(** ** fbcGenerateOutput (lines 101-115) *)

(** The dead-band clamp of lines 104-107. *)
Definition deadband_clamp (d : fbc_fields) (out : Z) : Z :=
  if (out <? pos_deadband d) && (0 <? out) then pos_deadband d
  else if (neg_deadband d <? out) && (out <? 0) then neg_deadband d
  else out.

(** The test of line 109. *)
Definition in_tolerance (d : fbc_fields) (error : Z) : bool :=
  to_uint (c_abs error) <? to_uint (acceptableTolerance d).

(** [_confidence] after lines 109-112. *)
Definition next_confidence (d : fbc_fields) (error : Z) : Z :=
  if in_tolerance d error then to_uint (_confidence d + 1) else 0.

(** [error] of line 102 for the sensor reading [s]. *)
Definition step_error (d : fbc_fields) (s : Z) : Z := to_int (goal d - s).

Definition fbcGenerateOutput (fbc : fbc_t) (w : W) : Z * fbc_t * W :=
  let d := fields fbc in
  let '(s, w1) := sense fbc w in
  let error := step_error d s in
  let '(out, w2) := compute fbc d error w1 in
  let out := deadband_clamp d out in
  let d1 := set_confidence d (next_confidence d error) in
  let '(t, w3) := CUR_TIME P w2 in
  (out, set_fields fbc (set_prevExecution d1 t), w3).

(** ** fbcRunContinuous (lines 117-120) *)

Definition fbcRunContinuous (fbc : fbc_t) (h : stall_hist) (w : W)
  : Z * fbc_t * stall_hist * W :=
  let '(out, fbc1, w1) := fbcGenerateOutput fbc w in
  let w2 := move fbc1 out w1 in
  let '(r, h1, w3) := fbcIsConfident fbc1 h w2 in
  (r, fbc1, h1, w3).

(** ** fbcRunCompletion (lines 87-95) *)

(** The macro of line 90. *)
Definition HAS_TIMED_OUT (timeout start now : Z) : bool :=
  (timeout =? 0) || (now <=? to_ulong (ulong_bits P) (start + timeout)).

(** The local [now] together with everything the loop changes. *)
Record loop_state : Type := {
  ls_now : Z;
  ls_fbc : fbc_t;
  ls_hist : stall_hist;
  ls_world : W
}.

(** What the call leaves behind: the returned flag, the controller, the
    statics and the world. *)
Definition completion : Type := (bool * fbc_t * stall_hist * W)%type.

(** One evaluation of the loop condition of line 91, followed either by
    the wait of line 92 ([inr]) or by the return of line 93 ([inl]). *)
Definition completion_body (timeout start : Z) (s : loop_state)
  : completion + loop_state :=
  let '(r, fbc1, h1, w1) :=
    fbcRunContinuous (ls_fbc s) (ls_hist s) (ls_world s) in
  if (r =? 0) && HAS_TIMED_OUT timeout start (ls_now s) then
    let '(now1, w2) :=
      taskDelayUntil P (ls_now s) (FBC_LOOP_INTERVAL P) w1 in
    inr {| ls_now := now1; ls_fbc := fbc1; ls_hist := h1;
           ls_world := w2 |}
  else inl (HAS_TIMED_OUT timeout start (ls_now s), fbc1, h1, w1).

(** The loop, bounded by [fuel] evaluations of its condition; [None]
    when the loop is still running after them. *)
Fixpoint completion_loop (fuel : nat) (timeout start : Z)
    (s : loop_state) : option completion :=
  match fuel with
  | O => None
  | S fuel' =>
      match completion_body timeout start s with
      | inl res => Some res
      | inr s1 => completion_loop fuel' timeout start s1
      end
  end.

Definition fbcRunCompletion (fuel : nat) (fbc : fbc_t) (timeout : Z)
    (h : stall_hist) (w : W) : option completion :=
  let '(now, w1) := millis P w in
  let '(start, w2) := millis P w1 in
  completion_loop fuel timeout start
    {| ls_now := now; ls_fbc := fbc; ls_hist := h; ls_world := w2 |}.

End WithPlatform.

End Controller.

Arguments stall_fn W : clear implicits.
Arguments fbc_t W : clear implicits.
Arguments loop_state W : clear implicits.
Arguments completion W : clear implicits.

(** ** Runs of the controller *)

Section Runs.

Context {W : Type}.
Variable P : platform W.

(** Whether the step that starts in this state finds the error within the
    tolerance (line 109, for the error of line 102). *)
Definition step_in_tolerance (fbc : fbc_t W) (w : W) : bool :=
  in_tolerance (fields fbc) (step_error (fields fbc) (fst (sense fbc w))).

(** The controller, the statics and the world after [n] calls of
    fbcRunContinuous in a row. *)
Fixpoint run_continuous (n : nat) (fbc : fbc_t W) (h : stall_hist) (w : W)
  : fbc_t W * stall_hist * W :=
  match n with
  | O => (fbc, h, w)
  | S n' =>
      let '(fbc1, h1, w1) := run_continuous n' fbc h w in
      let '(_, fbc2, h2, w2) := fbcRunContinuous P fbc1 h1 w1 in
      (fbc2, h2, w2)
  end.

(** For each of these [n] steps, oldest first, whether its error was within
    the tolerance. *)
Fixpoint tolerance_trace (n : nat) (fbc : fbc_t W) (h : stall_hist) (w : W)
  : list bool :=
  match n with
  | O => []
  | S n' =>
      let '(fbc1, _, w1) := run_continuous n' fbc h w in
      tolerance_trace n' fbc h w ++ [step_in_tolerance fbc1 w1]
  end.

(** The length of the run of [true] that ends the list. *)
Definition trailing (l : list bool) : nat :=
  fold_left (fun (k : nat) (b : bool) => if b then S k else O) l O.

(** Whether fbcIsConfident, called in this state, gets [true] from the
    stall-detect capability (line 83). *)
Definition stall_reported (fbc : fbc_t W) (h : stall_hist) (w : W) : bool :=
  match stallDetect fbc with
  | None => false
  | Some f => fst (fst (call_stallDetect f fbc h w))
  end.

(** The results of [n] calls of fbcStallDetect in a row, oldest first, with
    the statics and the world they leave. *)
Fixpoint stall_checks (n : nat) (fbc : fbc_t W) (h : stall_hist) (w : W)
  : list bool * stall_hist * W :=
  match n with
  | O => ([], h, w)
  | S n' =>
      let '(rs, h1, w1) := stall_checks n' fbc h w in
      let '(r, h2, w2) := fbcStallDetect fbc h1 w1 in
      (rs ++ [r], h2, w2)
  end.

(** A stuck cycle: the call of fbcStallDetect that starts in this state is
    not exempted by line 32 and finds [delta < min_stuck] at line 36. *)
Definition stuck_cycle (fbc : fbc_t W) (h : stall_hist) (w : W) : bool :=
  negb (at_deadband (fields fbc))
  && (stall_delta h (fst (sense fbc w)) <? min_stuck (fields fbc)).

(** The loop state at the [k]-th evaluation of the loop condition of
    fbcRunCompletion, counted from 0, when the loop gets that far. *)
Fixpoint loop_iter (k : nat) (timeout start : Z) (s : loop_state W)
  : option (loop_state W) :=
  match k with
  | O => Some s
  | S k' =>
      match completion_body P timeout start s with
      | inl _ => None
      | inr s1 => loop_iter k' timeout start s1
      end
  end.

(** The loop state that fbcRunCompletion enters its loop with. *)
Definition completion_entry (fbc : fbc_t W) (h : stall_hist) (w : W)
  : Z * loop_state W :=
  let '(now, w1) := millis P w in
  let '(start, w2) := millis P w1 in
  (start, {| ls_now := now; ls_fbc := fbc; ls_hist := h; ls_world := w2 |}).

(** The result of the call of fbcRunContinuous made from a loop state. *)
Definition loop_step_result (s : loop_state W) : Z :=
  fst (fst (fst (fbcRunContinuous P (ls_fbc s) (ls_hist s) (ls_world s)))).

End Runs.

(** ** _fbcTask (lines 15-22)

    The body of the background task: it never returns, so the model gives
    the state of the loop after a number of turns. *)

Section Task.

Context {W : Type}.
Variable P : platform W.

(** One turn of the loop of lines 18-21: a control step, whose result is
    dropped, and the wait for the next tick. *)
Definition fbcTask_body (s : loop_state W) : loop_state W :=
  let '(_, fbc1, h1, w1) :=
    fbcRunContinuous P (ls_fbc s) (ls_hist s) (ls_world s) in
  let '(now1, w2) := taskDelayUntil P (ls_now s) (FBC_LOOP_INTERVAL P) w1 in
  {| ls_now := now1; ls_fbc := fbc1; ls_hist := h1; ls_world := w2 |}.

(** The loop state after [k] turns. *)
Fixpoint fbcTask_iter (k : nat) (s : loop_state W) : loop_state W :=
  match k with
  | O => s
  | S k' => fbcTask_iter k' (fbcTask_body s)
  end.

(** The task after [k] turns of its loop: [now] is read once, at line 17. *)
Definition _fbcTask (k : nat) (fbc : fbc_t W) (h : stall_hist) (w : W)
  : loop_state W :=
  let '(now, w1) := millis P w in
  fbcTask_iter k
    {| ls_now := now; ls_fbc := fbc; ls_hist := h; ls_world := w1 |}.

End Task.

(** An actuator command that is not strictly inside either open dead-band
    range. *)
Definition outside_deadband (d : fbc_fields) (c : Z) : Prop :=
  ~ (0 < c < pos_deadband d) /\ ~ (neg_deadband d < c < 0).

(** ** The tests of lines 36 and 109 in plain arithmetic

    What the two tests are meant to compare, in unbounded integers, for
    stating properties without the conversions of the model. *)

Section Plain.

Context {W : Type}.
Variable P : platform W.

(** [|goal - sense()| < acceptableTolerance] for the step that starts in
    this state. *)
Definition error_within (fbc : fbc_t W) (w : W) : bool :=
  Z.abs (goal (fields fbc) - fst (sense fbc w))
  <? acceptableTolerance (fields fbc).

(** [goal - sense()] of that step fits an int and is not INT_MIN. *)
Definition error_in_range (fbc : fbc_t W) (w : W) : Prop :=
  - 2 ^ 31 < goal (fields fbc) - fst (sense fbc w) < 2 ^ 31.

(** For each of [n] control steps in a row, oldest first, whether
    [|goal - sense()| < acceptableTolerance] held in it. *)
Fixpoint within_trace (n : nat) (fbc : fbc_t W) (h : stall_hist) (w : W)
  : list bool :=
  match n with
  | O => []
  | S n' =>
      let '(fbc1, _, w1) := run_continuous P n' fbc h w in
      within_trace n' fbc h w ++ [error_within fbc1 w1]
  end.




End Plain.

(** ** A test bench

    A concrete world for running the controller: a clock, the readings the
    sensor will deliver and the commands the actuator received. *)

Record bench : Type := {
  clock : Z;
  readings : list Z;
  commands : list Z
}.

(** A sensor that delivers the recorded readings in turn, then 0. *)
Definition bench_sense (b : bench) : Z * bench :=
  match readings b with
  | [] => (0, b)
  | s :: l => (s, {| clock := clock b; readings := l; commands := commands b |})
  end.

(** A sensor that does not move. *)
Definition fixed_sense (v : Z) (b : bench) : Z * bench := (v, b).

Definition bench_move (v : Z) (b : bench) : bench :=
  {| clock := clock b; readings := readings b; commands := v :: commands b |}.

(** A proportional control law of gain 1. *)
Definition bench_compute (_ : fbc_fields) (error : Z) (b : bench)
  : Z * bench := (error, b).

Definition bench_resetController (_ : fbc_fields) (b : bench) : bench :=
  {| clock := clock b; readings := readings b; commands := [] |}.

Definition bench_platform : platform bench :=
  {| FBC_STALL := -1;
     FBC_LOOP_INTERVAL := 20;
     ulong_bits := 32;
     CUR_TIME := fun b => (clock b, b);
     millis := fun b => (clock b, b);
     taskDelayUntil := fun now interval b =>
       (now + interval,
        {| clock := now + interval; readings := readings b;
           commands := commands b |}) |}.

(** The structure before fbcInit: a control law installed, a controller
    reset installed, the data members zero. *)
Definition bench_blank : fbc_t bench :=
  {| move := bench_move; sense := bench_sense; resetSense := None;
     stallDetect := None; compute := bench_compute;
     resetController := Some bench_resetController;
     fields :=
       {| goal := 0; neg_deadband := 0; pos_deadband := 0;
          acceptableTolerance := 0; acceptableConfidence := 0;
          _confidence := 0; _prevExecution := 0; output := 0 |} |}.

Definition bench_world (l : list Z) : bench :=
  {| clock := 1000; readings := l; commands := [] |}.

(** A controller made by fbcInit with dead-band bounds -5 and 5. *)
Definition bench_fbc (sense' : bench -> Z * bench)
    (stallDetect' : option (stall_fn bench))
    (acceptableTolerance' acceptableConfidence' : Z) : fbc_t bench :=
  fst (fbcInit bench_blank bench_move sense' None stallDetect' (-5) 5
         acceptableTolerance' acceptableConfidence' (bench_world [])).

(** The same controller with a goal. *)
Definition with_goal (fbc : fbc_t bench) (g : Z) : fbc_t bench :=
  set_fields fbc (set_goal (fields fbc) g).

(** The same controller with a last output. *)
Definition with_output (fbc : fbc_t bench) (v : Z) : fbc_t bench :=
  set_fields fbc
    {| goal := goal (fields fbc); neg_deadband := neg_deadband (fields fbc);
       pos_deadband := pos_deadband (fields fbc);
       acceptableTolerance := acceptableTolerance (fields fbc);
       acceptableConfidence := acceptableConfidence (fields fbc);
       _confidence := _confidence (fields fbc);
       _prevExecution := _prevExecution (fields fbc); output := v |}.

(** The convergence scenario: goal 100, tolerance 5, three steps of
    confidence, no stall detection. *)
Definition converging_fbc : fbc_t bench :=
  with_goal (bench_fbc bench_sense None 5 3) 100.

Definition converging_world : bench := bench_world [90; 92; 96; 97; 98].

(** The stall scenario: tolerance 8 (so [min_stuck] is 1), two cycles of
    confidence, a sensor stuck at 50. *)
Definition stuck_fbc : fbc_t bench :=
  bench_fbc (fixed_sense 50) (Some builtin_stallDetect) 8 2.

Definition stuck_hist : stall_hist := {| _prev := 50; _count := 0 |}.

(** Two controllers with sensors of their own, tolerance 16 (so
    [min_stuck] is 2) and a confidence threshold of 0. *)
Definition left_fbc : fbc_t bench :=
  bench_fbc (fixed_sense 50) (Some builtin_stallDetect) 16 0.

Definition right_fbc : fbc_t bench :=
  bench_fbc (fixed_sense 51) (Some builtin_stallDetect) 16 0.

(** A controller without stall detection whose sensor rests at 0, and the
    same controller with fbcStallDetect installed. *)
Definition resting_fbc : fbc_t bench := bench_fbc (fixed_sense 0) None 8 0.

Definition resting_stall_fbc : fbc_t bench :=
  bench_fbc (fixed_sense 0) (Some builtin_stallDetect) 8 0.

(** A controller that sits on its goal: the sensor rests at the goal 100,
    tolerance 5, three steps of confidence, no stall detection. *)
Definition steady_fbc : fbc_t bench :=
  with_goal (bench_fbc (fixed_sense 100) None 5 3) 100.

(** As many steps as the confidence counter has values. *)
Definition wrap_steps : nat := Z.to_nat (2 ^ 32).




(** The convergence scenario with errors of both signs: 10, 8, -4, 3, -2. *)
Definition overshooting_world : bench := bench_world [90; 92; 104; 97; 102].

(** ** Statements that the code does not satisfy *)

(** Stall histories kept apart: a call of the stall detector for [a] does
    not change what a following call for [b] finds and does. *)
Definition stall_history_isolated {W : Type} (a b : fbc_t W)
    (h : stall_hist) (w : W) : Prop :=
  let '(_, h1, w1) := fbcStallDetect a h w in
  fbcStallDetect b h1 w1 = fbcStallDetect b h w1.

(** [_prev] holds the sensed value after every call of the stall
    detector. *)
Definition prev_tracks_sensor {W : Type} (fbc : fbc_t W) (h : stall_hist)
    (w : W) : Prop :=
  let '(_, h1, _) := fbcStallDetect fbc h w in
  _prev h1 = fst (sense fbc w).

(** With a null stallDetect pointer fbcIsConfident still answers by the
    built-in heuristic. *)
Definition default_stall_applies {W : Type} (P : platform W) (fbc : fbc_t W)
    (h : stall_hist) (w : W) : Prop :=
  stallDetect fbc = None ->
  fst (fst (fbcIsConfident P fbc h w)) =
  if fst (fst (fbcStallDetect fbc h w)) then FBC_STALL P
  else of_bool (acceptableConfidence (fields fbc) <=? _confidence (fields fbc)).

(** The controller reset that the caller supplied is installed after
    fbcInit. *)
Definition init_installs_resetController {W : Type} (fbc : fbc_t W)
    (mv : Z -> W -> W) (sn : W -> Z * W) (w : W) : Prop :=
  resetController fbc <> None ->
  resetController (fst (fbcInit fbc mv sn None None 0 0 0 0 w)) <> None.

(** * Properties *)

(** ** Integer conversions *)

Lemma to_uint_small (z : Z) : 0 <= z < 2 ^ 32 -> to_uint z = z.
Proof. intros Hz. unfold to_uint. apply Z.mod_small. exact Hz. Qed.

Lemma to_uint_range (z : Z) : 0 <= to_uint z < 2 ^ 32.
Proof. unfold to_uint. apply Z.mod_pos_bound. lia. Qed.


Section Properties.

Context {W : Type}.
Variable P : platform W.

(** ** The dead-band clamp *)

Lemma deadband_clamp_cases (d : fbc_fields) (o : Z) :
  (0 < o < pos_deadband d -> deadband_clamp d o = pos_deadband d)
  /\ (neg_deadband d < o < 0 -> deadband_clamp d o = neg_deadband d)
  /\ (o = 0 -> deadband_clamp d o = o).
Proof.
  unfold deadband_clamp. repeat split; intros H.
  - destruct (Z.ltb_spec o (pos_deadband d)), (Z.ltb_spec 0 o);
      simpl; try reflexivity; lia.
  - destruct (Z.ltb_spec o (pos_deadband d)), (Z.ltb_spec 0 o),
      (Z.ltb_spec (neg_deadband d) o), (Z.ltb_spec o 0);
      simpl; try reflexivity; lia.
  - subst o. rewrite andb_false_r. simpl. rewrite andb_false_r. reflexivity.
Qed.

Lemma fbcGenerateOutput_unfold (fbc : fbc_t W) (w : W) :
  fbcGenerateOutput P fbc w =
  (let d := fields fbc in
   let sw := sense fbc w in
   let error := step_error d (fst sw) in
   let ow := compute fbc d error (snd sw) in
   let tw := CUR_TIME P (snd ow) in
   (deadband_clamp d (fst ow),
    set_fields fbc
      (set_prevExecution (set_confidence d (next_confidence d error))
         (fst tw)),
    snd tw)).
Proof.
  unfold fbcGenerateOutput. cbv zeta.
  destruct (sense fbc w) as [s w1]. simpl fst. simpl snd.
  destruct (compute fbc (fields fbc) (step_error (fields fbc) s) w1)
    as [o w2].
  simpl fst. simpl snd.
  destruct (CUR_TIME P w2) as [t w3]. reflexivity.
Qed.

(** C3.  Let [o] be what the control law returns inside fbcGenerateOutput
    (for the error [goal - sense()] of that call).  If [0 < o < pos_deadband]
    the call returns exactly [pos_deadband]; if [neg_deadband < o < 0] it
    returns exactly [neg_deadband]; if [o = 0] it returns [o] unchanged. *)
Theorem fbcGenerateOutput_deadband (fbc : fbc_t W) (w w1 w2 : W) (s o : Z) :
  sense fbc w = (s, w1) ->
  compute fbc (fields fbc) (step_error (fields fbc) s) w1 = (o, w2) ->
  let out := fst (fst (fbcGenerateOutput P fbc w)) in
  (0 < o < pos_deadband (fields fbc) -> out = pos_deadband (fields fbc))
  /\ (neg_deadband (fields fbc) < o < 0 -> out = neg_deadband (fields fbc))
  /\ (o = 0 -> out = o).
Proof.
  intros Hs Hc out. subst out.
  rewrite fbcGenerateOutput_unfold. cbv zeta. rewrite Hs. simpl fst.
  simpl snd. rewrite Hc. simpl fst.
  apply deadband_clamp_cases.
Qed.

(** ** fbcSetGoal *)

(** C8.  fbcSetGoal fails exactly on a null handle.  On a controller whose
    goal already is the new value it returns success and changes nothing
    (goal, timestamp and world are as before); otherwise it returns
    success, stores the new goal and stamps the time read from CUR_TIME,
    leaving every other member alone.  Calling it again with the same value
    returns the same result and changes nothing more. *)
Theorem fbcSetGoal_spec (fbc : option (fbc_t W)) (new_goal : Z) (w : W) :
  (fst (fst (fbcSetGoal P fbc new_goal w)) = false <-> fbc = None)
  /\ (forall c, fbc = Some c -> goal (fields c) = new_goal ->
      fbcSetGoal P fbc new_goal w = (true, Some c, w))
  /\ (forall c, fbc = Some c -> goal (fields c) <> new_goal ->
      fbcSetGoal P fbc new_goal w =
      (true,
       Some (set_fields c
               (set_prevExecution (set_goal (fields c) new_goal)
                  (fst (CUR_TIME P w)))),
       snd (CUR_TIME P w)))
  /\ (let '(r, fbc1, w1) := fbcSetGoal P fbc new_goal w in
      fbcSetGoal P fbc1 new_goal w1 = (r, fbc1, w1)).
Proof.
  unfold fbcSetGoal. destruct fbc as [c|].
  - destruct (Z.eqb_spec (goal (fields c)) new_goal) as [E|N].
    + repeat split; try discriminate.
      * intros c' H _. now inversion H.
      * intros c' H Hne. inversion H; subst c'. contradiction.
      * rewrite E, Z.eqb_refl. reflexivity.
    + destruct (CUR_TIME P w) as [t w1]. repeat split; try discriminate.
      * intros c' H He. inversion H; subst c'. contradiction.
      * intros c' H _. now inversion H.
      * simpl. rewrite Z.eqb_refl. reflexivity.
  - repeat split; discriminate.
Qed.

(** ** fbcReset and fbcInit *)

Lemma fbcReset_spec (fbc : fbc_t W) (w : W) :
  let fbc1 := fst (fbcReset fbc w) in
  _confidence (fields fbc1) = 0
  /\ goal (fields fbc1) = 0
  /\ acceptableConfidence (fields fbc1) = acceptableConfidence (fields fbc)
  /\ stallDetect fbc1 = stallDetect fbc.
Proof. unfold fbcReset. simpl. repeat split. Qed.

(** C9 (amended).  fbcInit installs the four capabilities it is given
    (move, sense, resetSense, stallDetect) and the four thresholds, sets
    resetController to null, leaves compute (and the output and timestamp
    members) as the structure had them, and then performs fbcReset: after
    fbcInit the confidence counter is 0, the goal is 0, and the sensor
    reset, when one was given, has been called once. *)
Theorem fbcInit_spec (fbc : fbc_t W) (mv : Z -> W -> W) (sn : W -> Z * W)
    (rs : option (W -> W)) (sd : option (stall_fn W))
    (neg pos tol conf : Z) (w : W) :
  let '(fbc1, w1) := fbcInit fbc mv sn rs sd neg pos tol conf w in
  move fbc1 = mv /\ sense fbc1 = sn /\ resetSense fbc1 = rs
  /\ stallDetect fbc1 = sd
  /\ neg_deadband (fields fbc1) = neg /\ pos_deadband (fields fbc1) = pos
  /\ acceptableTolerance (fields fbc1) = tol
  /\ acceptableConfidence (fields fbc1) = conf
  /\ resetController fbc1 = None
  /\ compute fbc1 = compute fbc
  /\ output (fields fbc1) = output (fields fbc)
  /\ _prevExecution (fields fbc1) = _prevExecution (fields fbc)
  /\ _confidence (fields fbc1) = 0
  /\ goal (fields fbc1) = 0
  /\ w1 = match rs with Some f => f w | None => w end
  /\ exists wired, (fbc1, w1) = fbcReset wired w /\ resetController wired = None.
Proof.
  unfold fbcInit.
  match goal with |- context [fbcReset ?c w] => set (wired := c) end.
  unfold fbcReset. simpl.
  repeat (split; [reflexivity|]).
  exists wired. split; reflexivity.
Qed.

(** ** fbcStallDetect *)

Lemma fbcStallDetect_unfold (fbc : fbc_t W) (h : stall_hist) (w : W) :
  fbcStallDetect fbc h w =
  (let d := fields fbc in
   let sw1 := sense fbc w in
   if at_deadband d then
     (false, {| _prev := _prev h; _count := 0 |}, snd sw1)
   else
     let sw2 := sense fbc (snd sw1) in
     if acceptableConfidence d <? next_count d h (fst sw1) then
       (true, stall_hist_init, snd sw2)
     else
       (false, {| _prev := fst sw2; _count := next_count d h (fst sw1) |},
        snd sw2)).
Proof.
  unfold fbcStallDetect. cbv zeta.
  destruct (sense fbc w) as [s1 w1]. simpl fst. simpl snd.
  destruct (at_deadband (fields fbc)); [reflexivity|].
  destruct (sense fbc w1) as [s2 w2]. reflexivity.
Qed.

Lemma min_stuck_max (d : fbc_fields) :
  min_stuck d = Z.max 1 (to_uint (Z.shiftr (acceptableTolerance d) 3)).
Proof.
  unfold min_stuck.
  destruct (Z.ltb_spec (to_uint (Z.shiftr (acceptableTolerance d) 3)) 1); lia.
Qed.


Lemma next_count_bound (d : fbc_fields) (h : stall_hist) (s : Z) :
  0 <= _count h < 2 ^ 32 - 1 ->
  0 <= next_count d h s <= _count h + 1.
Proof.
  intros Hc. unfold next_count.
  destruct (stall_delta h s <? min_stuck d); [|lia].
  rewrite to_uint_small; lia.
Qed.

(** A check that starts with a count below [acceptableConfidence] reports
    no stall and leaves the count at most one higher. *)
Lemma fbcStallDetect_below (fbc : fbc_t W) (h : stall_hist) (w : W) :
  0 <= _count h < acceptableConfidence (fields fbc) ->
  acceptableConfidence (fields fbc) < 2 ^ 32 ->
  fst (fst (fbcStallDetect fbc h w)) = false
  /\ 0 <= _count (snd (fst (fbcStallDetect fbc h w))) <= _count h + 1.
Proof.
  intros Hc Hn. rewrite fbcStallDetect_unfold. cbv zeta.
  destruct (at_deadband (fields fbc)); simpl; [lia|].
  pose proof (next_count_bound (fields fbc) h (fst (sense fbc w))) as Hb.
  destruct (Z.ltb_spec (acceptableConfidence (fields fbc))
              (next_count (fields fbc) h (fst (sense fbc w)))); simpl; lia.
Qed.



(** C5 (amended).  What a call of fbcStallDetect leaves in [_prev]: a call
    exempted by line 32 returns before line 41, so [_prev] stays as it was
    (the count is reset and the result is false); a call that declares a
    stall resets [_prev] to 0; every other call stores the sensor reading
    taken at line 41, after the delta comparison. *)
Theorem fbcStallDetect_prev (fbc : fbc_t W) (h : stall_hist) (w : W) :
  let '(r, h1, w1) := fbcStallDetect fbc h w in
  (at_deadband (fields fbc) = true ->
     r = false /\ _prev h1 = _prev h /\ _count h1 = 0
     /\ w1 = snd (sense fbc w))
  /\ (at_deadband (fields fbc) = false -> r = true ->
        _prev h1 = 0 /\ _count h1 = 0)
  /\ (at_deadband (fields fbc) = false -> r = false ->
        _prev h1 = fst (sense fbc (snd (sense fbc w)))
        /\ _count h1 = next_count (fields fbc) h (fst (sense fbc w))).
Proof.
  rewrite fbcStallDetect_unfold. cbv zeta.
  destruct (at_deadband (fields fbc)).
  - repeat split; discriminate.
  - destruct (acceptableConfidence (fields fbc)
              <? next_count (fields fbc) h (fst (sense fbc w)));
      repeat split; discriminate.
Qed.

(** How the statics of lines 24-25 carry from one controller to another:
    after a call for [a] that is neither exempted nor declares a stall,
    they hold the reading of [a]'s sensor and [a]'s stuck count, and the
    verdict of a following call for [b] is computed from them. *)
Theorem stall_history_shared (a b : fbc_t W) (h : stall_hist) (w : W) :
  at_deadband (fields a) = false ->
  fst (fst (fbcStallDetect a h w)) = false ->
  let '(_, h1, w1) := fbcStallDetect a h w in
  let reading_a := fst (sense a (snd (sense a w))) in
  let count_a := next_count (fields a) h (fst (sense a w)) in
  h1 = {| _prev := reading_a; _count := count_a |}
  /\ (at_deadband (fields b) = false ->
      fst (fst (fbcStallDetect b h1 w1)) =
      (acceptableConfidence (fields b)
       <? next_count (fields b) {| _prev := reading_a; _count := count_a |}
            (fst (sense b w1)))).
Proof.
  intros Hd Hr. rewrite fbcStallDetect_unfold in *. cbv zeta in *.
  rewrite Hd in *.
  destruct (acceptableConfidence (fields a)
            <? next_count (fields a) h (fst (sense a w)));
    [discriminate|].
  split; [reflexivity|].
  intros Hb. rewrite fbcStallDetect_unfold. cbv zeta. rewrite Hb.
  match goal with |- context [?x <? ?y] => destruct (x <? y) end;
    reflexivity.
Qed.

(** ** fbcIsConfident *)

Lemma fbcIsConfident_unfold (fbc : fbc_t W) (h : stall_hist) (w : W) :
  fbcIsConfident P fbc h w =
  (let out :=
     of_bool (acceptableConfidence (fields fbc) <=? _confidence (fields fbc))
   in
   match stallDetect fbc with
   | None => (out, h, w)
   | Some f =>
       let r := call_stallDetect f fbc h w in
       ((if fst (fst r) then FBC_STALL P else out), snd (fst r), snd r)
   end).
Proof.
  unfold fbcIsConfident. cbv zeta.
  destruct (stallDetect fbc) as [f|]; [|reflexivity].
  destruct (call_stallDetect f fbc h w) as [[b h1] w1]. reflexivity.
Qed.

Lemma fbcIsConfident_result (fbc : fbc_t W) (h : stall_hist) (w : W) :
  fst (fst (fbcIsConfident P fbc h w)) =
  if stall_reported fbc h w then FBC_STALL P
  else of_bool (acceptableConfidence (fields fbc) <=? _confidence (fields fbc)).
Proof.
  rewrite fbcIsConfident_unfold. cbv zeta. unfold stall_reported.
  destruct (stallDetect fbc); reflexivity.
Qed.


(** C6 (amended).  When its stallDetect pointer is null, fbcIsConfident
    runs no stall detection at all: it returns 1 or 0 by the confidence
    counter alone and leaves the stall statics and the world untouched, so
    it never returns FBC_STALL (a value other than 0 and 1).  The built-in
    heuristic runs only when fbcStallDetect itself was installed as the
    capability; its verdict then decides between FBC_STALL and the
    confidence result. *)
Theorem fbcIsConfident_null_stallDetect (fbc : fbc_t W) (h : stall_hist)
    (w : W) :
  let out :=
    of_bool (acceptableConfidence (fields fbc) <=? _confidence (fields fbc))
  in
  (stallDetect fbc = None ->
     fbcIsConfident P fbc h w = (out, h, w)
     /\ (FBC_STALL P <> 0 -> FBC_STALL P <> 1 ->
         fst (fst (fbcIsConfident P fbc h w)) <> FBC_STALL P))
  /\ (stallDetect fbc = Some builtin_stallDetect ->
      fbcIsConfident P fbc h w =
      ((if fst (fst (fbcStallDetect fbc h w)) then FBC_STALL P else out),
       snd (fst (fbcStallDetect fbc h w)), snd (fbcStallDetect fbc h w))).
Proof.
  cbv zeta. split; intros Hsd; rewrite fbcIsConfident_unfold; cbv zeta;
    rewrite Hsd; [|reflexivity].
  split; [reflexivity|]. simpl. intros H0 H1.
  destruct (acceptableConfidence (fields fbc) <=? _confidence (fields fbc));
    simpl; congruence.
Qed.

(** ** The confidence counter along a run *)

Lemma fbcRunContinuous_unfold (fbc : fbc_t W) (h : stall_hist) (w : W) :
  fbcRunContinuous P fbc h w =
  (let g := fbcGenerateOutput P fbc w in
   let c := fbcIsConfident P (snd (fst g)) h
              (move (snd (fst g)) (fst (fst g)) (snd g)) in
   (fst (fst c), snd (fst g), snd (fst c), snd c)).
Proof.
  unfold fbcRunContinuous.
  destruct (fbcGenerateOutput P fbc w) as [[out fbc1] w1]. cbv zeta.
  simpl fst. simpl snd.
  destruct (fbcIsConfident P fbc1 h (move fbc1 out w1)) as [[r h1] w3].
  reflexivity.
Qed.

(** The controller that a step leaves: the same capabilities and
    thresholds, the confidence counter by line 109. *)
Lemma fbcRunContinuous_controller (fbc : fbc_t W) (h : stall_hist) (w : W) :
  let fbc1 := snd (fst (fst (fbcRunContinuous P fbc h w))) in
  _confidence (fields fbc1) =
    (if step_in_tolerance fbc w
     then to_uint (_confidence (fields fbc) + 1) else 0)
  /\ acceptableConfidence (fields fbc1) = acceptableConfidence (fields fbc)
  /\ stallDetect fbc1 = stallDetect fbc.
Proof.
  cbv zeta. rewrite fbcRunContinuous_unfold. cbv zeta. simpl.
  rewrite fbcGenerateOutput_unfold. cbv zeta. simpl.
  repeat split.
Qed.

Lemma trailing_snoc (l : list bool) (b : bool) :
  trailing (l ++ [b]) = if b then S (trailing l) else O.
Proof. unfold trailing. rewrite fold_left_app. reflexivity. Qed.

Lemma trailing_le_length (l : list bool) : (trailing l <= length l)%nat.
Proof.
  induction l as [|b l IH] using rev_ind; [apply Nat.le_refl|].
  rewrite trailing_snoc, length_app. simpl. destruct b; lia.
Qed.

Lemma tolerance_trace_length (n : nat) (fbc : fbc_t W) (h : stall_hist)
    (w : W) :
  length (tolerance_trace P n fbc h w) = n.
Proof.
  induction n as [|n IH]; [reflexivity|].
  simpl. destruct (run_continuous P n fbc h w) as [[fbc1 h1] w1].
  rewrite length_app, IH. simpl. lia.
Qed.

Lemma run_continuous_succ (n : nat) (fbc : fbc_t W) (h : stall_hist)
    (w : W) :
  fst (fst (run_continuous P (S n) fbc h w)) =
  snd (fst (fst (fbcRunContinuous P
                   (fst (fst (run_continuous P n fbc h w)))
                   (snd (fst (run_continuous P n fbc h w)))
                   (snd (run_continuous P n fbc h w))))).
Proof.
  simpl. destruct (run_continuous P n fbc h w) as [[fbc1 h1] w1]. simpl.
  destruct (fbcRunContinuous P fbc1 h1 w1) as [[[r fbc2] h2] w2].
  reflexivity.
Qed.

Lemma tolerance_trace_succ (n : nat) (fbc : fbc_t W) (h : stall_hist)
    (w : W) :
  tolerance_trace P (S n) fbc h w =
  tolerance_trace P n fbc h w
  ++ [step_in_tolerance (fst (fst (run_continuous P n fbc h w)))
        (snd (run_continuous P n fbc h w))].
Proof.
  simpl. destruct (run_continuous P n fbc h w) as [[fbc1 h1] w1].
  reflexivity.
Qed.

Lemma to_uint_succ (z : Z) : to_uint (to_uint z + 1) = to_uint (z + 1).
Proof. unfold to_uint. apply Zplus_mod_idemp_l. Qed.

(** After [n] steps from a counter of 0 the confidence counter is, modulo
    2^32, the number of steps in a row, up to the last one, that were
    within the tolerance. *)
Lemma run_continuous_confidence (n : nat) (fbc : fbc_t W) (h : stall_hist)
    (w : W) :
  _confidence (fields fbc) = 0 ->
  let fbc' := fst (fst (run_continuous P n fbc h w)) in
  _confidence (fields fbc') =
    to_uint (Z.of_nat (trailing (tolerance_trace P n fbc h w)))
  /\ acceptableConfidence (fields fbc') = acceptableConfidence (fields fbc)
  /\ stallDetect fbc' = stallDetect fbc.
Proof.
  intros H0. induction n as [|n IH].
  - simpl. auto.
  - cbv zeta in *. destruct IH as (IHc & IHa & IHs).
    rewrite run_continuous_succ, tolerance_trace_succ, trailing_snoc.
    pose proof (fbcRunContinuous_controller
                  (fst (fst (run_continuous P n fbc h w)))
                  (snd (fst (run_continuous P n fbc h w)))
                  (snd (run_continuous P n fbc h w))) as Hstep.
    cbv zeta in Hstep. destruct Hstep as (Hc & Ha & Hs).
    rewrite Hc, Ha, Hs, IHc, IHa, IHs. repeat split.
    destruct (step_in_tolerance _ _); [|reflexivity].
    rewrite to_uint_succ. f_equal. lia.
Qed.

(** ** fbcRunCompletion *)


Lemma completion_body_unfold (timeout start : Z) (s : loop_state W) :
  completion_body P timeout start s =
  (let c := fbcRunContinuous P (ls_fbc s) (ls_hist s) (ls_world s) in
   if (loop_step_result P s =? 0) && HAS_TIMED_OUT P timeout start (ls_now s)
   then
     let d := taskDelayUntil P (ls_now s) (FBC_LOOP_INTERVAL P) (snd c) in
     inr {| ls_now := fst d; ls_fbc := snd (fst (fst c));
            ls_hist := snd (fst c); ls_world := snd d |}
   else
     inl (HAS_TIMED_OUT P timeout start (ls_now s), snd (fst (fst c)),
          snd (fst c), snd c)).
Proof.
  unfold completion_body, loop_step_result.
  destruct (fbcRunContinuous P (ls_fbc s) (ls_hist s) (ls_world s))
    as [[[r fbc1] h1] w1].
  cbv zeta. simpl fst. simpl snd.
  destruct ((r =? 0) && HAS_TIMED_OUT P timeout start (ls_now s));
    [|reflexivity].
  destruct (taskDelayUntil P (ls_now s) (FBC_LOOP_INTERVAL P) w1).
  reflexivity.
Qed.

(** The loop waits (line 92) only after a step that returned 0 and a time
    check, made with the current [now], that found time left; the wait
    moves [now] on for the next check. *)
Lemma completion_body_wait (timeout start : Z) (s s' : loop_state W) :
  completion_body P timeout start s = inr s' ->
  loop_step_result P s = 0
  /\ HAS_TIMED_OUT P timeout start (ls_now s) = true
  /\ ls_now s' =
     fst (taskDelayUntil P (ls_now s) (FBC_LOOP_INTERVAL P)
            (snd (fbcRunContinuous P (ls_fbc s) (ls_hist s) (ls_world s)))).
Proof.
  rewrite completion_body_unfold. cbv zeta.
  destruct (Z.eqb_spec (loop_step_result P s) 0) as [E|N]; simpl;
    [|discriminate].
  destruct (HAS_TIMED_OUT P timeout start (ls_now s)); [|discriminate].
  intros H. inversion H. simpl. auto.
Qed.

(** The loop ends (line 93) after a step that returned non-zero or a time
    check that found no time left, and returns that time check. *)
Lemma completion_body_return (timeout start : Z) (s : loop_state W)
    (res : completion W) :
  completion_body P timeout start s = inl res ->
  (loop_step_result P s <> 0
   \/ HAS_TIMED_OUT P timeout start (ls_now s) = false)
  /\ res =
     (HAS_TIMED_OUT P timeout start (ls_now s),
      snd (fst (fst (fbcRunContinuous P (ls_fbc s) (ls_hist s) (ls_world s)))),
      snd (fst (fbcRunContinuous P (ls_fbc s) (ls_hist s) (ls_world s))),
      snd (fbcRunContinuous P (ls_fbc s) (ls_hist s) (ls_world s))).
Proof.
  rewrite completion_body_unfold. cbv zeta.
  destruct (Z.eqb_spec (loop_step_result P s) 0) as [E|N]; simpl.
  - destruct (HAS_TIMED_OUT P timeout start (ls_now s)); [discriminate|].
    intros H. inversion H. auto.
  - intros H. inversion H. auto.
Qed.

Lemma completion_body_nonzero (timeout start : Z) (s : loop_state W) :
  loop_step_result P s <> 0 ->
  completion_body P timeout start s =
  inl (HAS_TIMED_OUT P timeout start (ls_now s),
       snd (fst (fst (fbcRunContinuous P (ls_fbc s) (ls_hist s) (ls_world s)))),
       snd (fst (fbcRunContinuous P (ls_fbc s) (ls_hist s) (ls_world s))),
       snd (fbcRunContinuous P (ls_fbc s) (ls_hist s) (ls_world s))).
Proof.
  intros N. rewrite completion_body_unfold. cbv zeta.
  destruct (Z.eqb_spec (loop_step_result P s) 0); [contradiction|].
  reflexivity.
Qed.

(** The loop returns within [fuel] evaluations of its condition exactly
    when one of the first [fuel] evaluations leads to the return. *)
Lemma completion_loop_returns (fuel : nat) (timeout start : Z)
    (s : loop_state W) (res : completion W) :
  completion_loop P fuel timeout start s = Some res <->
  exists (k : nat) (sk : loop_state W),
    (k < fuel)%nat /\ loop_iter P k timeout start s = Some sk
    /\ completion_body P timeout start sk = inl res.
Proof.
  revert s. induction fuel as [|fuel IH]; intros s; simpl.
  - split; [discriminate|]. intros (k & sk & Hk & _). lia.
  - split.
    + destruct (completion_body P timeout start s) as [res0|s1] eqn:Hb.
      * intros H. inversion H; subst res0. exists O, s.
        repeat split; [lia|exact Hb].
      * intros H. apply IH in H. destruct H as (k & sk & Hk & Hi & Hr).
        exists (S k), sk. repeat split; [lia| |exact Hr].
        simpl. rewrite Hb. exact Hi.
    + intros (k & sk & Hk & Hi & Hr). destruct k as [|k]; simpl in Hi.
      * inversion Hi; subst sk. rewrite Hr. reflexivity.
      * destruct (completion_body P timeout start s) as [res0|s1];
          [discriminate|].
        apply IH. exists k, sk. repeat split; [lia|exact Hi|exact Hr].
Qed.

Lemma fbcRunCompletion_unfold (fuel : nat) (fbc : fbc_t W) (timeout : Z)
    (h : stall_hist) (w : W) :
  fbcRunCompletion P fuel fbc timeout h w =
  completion_loop P fuel timeout (fst (completion_entry P fbc h w))
    (snd (completion_entry P fbc h w)).
Proof.
  unfold fbcRunCompletion, completion_entry.
  destruct (millis P w) as [now w1]. destruct (millis P w1) as [start w2].
  reflexivity.
Qed.



(** ** A confidence threshold of 0 *)

Lemma fbcIsConfident_zero_threshold (fbc : fbc_t W) (h : stall_hist)
    (w : W) :
  acceptableConfidence (fields fbc) = 0 ->
  0 <= _confidence (fields fbc) ->
  fst (fst (fbcIsConfident P fbc h w)) =
  if stall_reported fbc h w then FBC_STALL P else 1.
Proof.
  intros Ha Hc. rewrite fbcIsConfident_result, Ha.
  destruct (Z.leb_spec 0 (_confidence (fields fbc))); [reflexivity|lia].
Qed.

Lemma next_confidence_nonneg (d : fbc_fields) (error : Z) :
  0 <= next_confidence d error.
Proof.
  unfold next_confidence. destruct (in_tolerance d error); [|lia].
  apply to_uint_range.
Qed.

(** C10 (amended).  With [acceptableConfidence = 0], right after fbcInit or
    fbcReset and before any control step, fbcIsConfident does not return
    NOT_CONFIDENT: it returns FBC_STALL when the installed stall-detect
    capability reports true, and 1 (CONFIDENT) otherwise, the counter 0
    meeting the threshold.  And, FBC_STALL being non-zero,
    fbcRunCompletion returns right after its first step, whatever the
    error and the timeout. *)
Theorem zero_threshold_confident (fbc : fbc_t W) (mv : Z -> W -> W)
    (sn : W -> Z * W) (rs : option (W -> W)) (sd : option (stall_fn W))
    (neg pos tol : Z) (h : stall_hist) (w w' : W) :
  let fbc_i := fst (fbcInit fbc mv sn rs sd neg pos tol 0 w) in
  let fbc_r := fst (fbcReset fbc w) in
  fst (fst (fbcIsConfident P fbc_i h w')) =
    (if stall_reported fbc_i h w' then FBC_STALL P else 1)
  /\ (acceptableConfidence (fields fbc) = 0 ->
      fst (fst (fbcIsConfident P fbc_r h w')) =
        (if stall_reported fbc_r h w' then FBC_STALL P else 1))
  /\ (acceptableConfidence (fields fbc) = 0 -> FBC_STALL P <> 0 ->
      forall (fuel : nat) (timeout : Z),
        let start := fst (completion_entry P fbc h w) in
        let s0 := snd (completion_entry P fbc h w) in
        let c := fbcRunContinuous P fbc h (ls_world s0) in
        fst (fst (fst c)) <> 0
        /\ fbcRunCompletion P (S fuel) fbc timeout h w =
           Some (HAS_TIMED_OUT P timeout start (ls_now s0),
                 snd (fst (fst c)), snd (fst c), snd c)).
Proof.
  cbv zeta. split; [|split].
  - apply fbcIsConfident_zero_threshold.
    + unfold fbcInit, fbcReset. reflexivity.
    + unfold fbcInit, fbcReset. simpl. lia.
  - intros Ha. apply fbcIsConfident_zero_threshold.
    + unfold fbcReset. simpl. exact Ha.
    + unfold fbcReset. simpl. lia.
  - intros Ha Hs fuel timeout.
    assert (Hfbc : ls_fbc (snd (completion_entry P fbc h w)) = fbc
                   /\ ls_hist (snd (completion_entry P fbc h w)) = h).
    { unfold completion_entry. destruct (millis P w) as [now w1].
      destruct (millis P w1) as [start w2]. split; reflexivity. }
    destruct Hfbc as [Hf Hh].
    assert (N : loop_step_result P (snd (completion_entry P fbc h w)) <> 0).
    { unfold loop_step_result. rewrite Hf, Hh.
      rewrite fbcRunContinuous_unfold. cbv zeta. simpl.
      rewrite fbcIsConfident_zero_threshold.
      - destruct (stall_reported _ _ _); [exact Hs|discriminate].
      - rewrite fbcGenerateOutput_unfold. cbv zeta. simpl. exact Ha.
      - rewrite fbcGenerateOutput_unfold. cbv zeta. simpl.
        apply next_confidence_nonneg. }
    split.
    + unfold loop_step_result in N. rewrite Hf, Hh in N. exact N.
    + rewrite fbcRunCompletion_unfold. simpl.
      rewrite (completion_body_nonzero _ _ _ N), Hf, Hh. reflexivity.
Qed.

(** ** Further properties *)

Lemma fbcRunContinuous_output (fbc : fbc_t W) (h : stall_hist) (w : W) :
  output (fields (snd (fst (fst (fbcRunContinuous P fbc h w)))))
  = output (fields fbc).
Proof.
  rewrite fbcRunContinuous_unfold. cbv zeta. simpl.
  rewrite fbcGenerateOutput_unfold. reflexivity.
Qed.

(** No function of fbc.c assigns the member [output] that line 32 reads:
    fbcGenerateOutput returns the clamped output without storing it, and
    after any number of control steps, after fbcReset, fbcInit and
    fbcSetGoal the member is what the structure held before; so the
    exemption test of the stall detector has the same outcome all along a
    run. *)
Theorem output_member_never_assigned (fbc : fbc_t W) (h : stall_hist)
    (w : W) (n : nat) (mv : Z -> W -> W) (sn : W -> Z * W)
    (rs : option (W -> W)) (sd : option (stall_fn W))
    (neg pos tol conf new_goal : Z) :
  output (fields (snd (fst (fbcGenerateOutput P fbc w)))) = output (fields fbc)
  /\ output (fields (fst (fst (run_continuous P n fbc h w))))
     = output (fields fbc)
  /\ output (fields (fst (fbcReset fbc w))) = output (fields fbc)
  /\ output (fields (fst (fbcInit fbc mv sn rs sd neg pos tol conf w)))
     = output (fields fbc)
  /\ option_map (fun c => output (fields c))
       (snd (fst (fbcSetGoal P (Some fbc) new_goal w)))
     = Some (output (fields fbc))
  /\ (neg_deadband (fields (fst (fst (run_continuous P n fbc h w))))
      = neg_deadband (fields fbc)
      /\ pos_deadband (fields (fst (fst (run_continuous P n fbc h w))))
         = pos_deadband (fields fbc)
      /\ at_deadband (fields (fst (fst (run_continuous P n fbc h w))))
         = at_deadband (fields fbc)).
Proof.
  assert (Hrun : output (fields (fst (fst (run_continuous P n fbc h w))))
                 = output (fields fbc)
                 /\ neg_deadband (fields (fst (fst (run_continuous P n fbc h w))))
                    = neg_deadband (fields fbc)
                 /\ pos_deadband (fields (fst (fst (run_continuous P n fbc h w))))
                    = pos_deadband (fields fbc)).
  { induction n as [|n IH]; [simpl; auto|].
    rewrite run_continuous_succ, fbcRunContinuous_unfold. cbv zeta. simpl.
    rewrite fbcGenerateOutput_unfold. cbv zeta. simpl. exact IH. }
  destruct Hrun as (Ho & Hn & Hp).
  split; [rewrite fbcGenerateOutput_unfold; reflexivity|].
  split; [exact Ho|].
  split; [reflexivity|]. split; [reflexivity|]. split.
  - unfold fbcSetGoal. destruct (goal (fields fbc) =? new_goal);
      [reflexivity|].
    destruct (CUR_TIME P w). reflexivity.
  - split; [exact Hn|]. split; [exact Hp|].
    unfold at_deadband. rewrite Ho, Hn, Hp. reflexivity.
Qed.

(** With [acceptableConfidence] at UINT_MAX the built-in stall detector
    never reports a stall: the unsigned stuck count cannot exceed it. *)
Theorem fbcStallDetect_uint_max (fbc : fbc_t W) (h : stall_hist) (w : W) :
  acceptableConfidence (fields fbc) = 2 ^ 32 - 1 ->
  fst (fst (fbcStallDetect fbc h w)) = false.
Proof.
  intros Ha. rewrite fbcStallDetect_unfold. cbv zeta.
  destruct (at_deadband (fields fbc)); [reflexivity|].
  assert (Hc : next_count (fields fbc) h (fst (sense fbc w)) <= 2 ^ 32 - 1).
  { unfold next_count.
    destruct (stall_delta h (fst (sense fbc w)) <? min_stuck (fields fbc));
      [|lia].
    pose proof (to_uint_range (_count h + 1)). lia. }
  rewrite Ha.
  destruct (Z.ltb_spec (2 ^ 32 - 1)
              (next_count (fields fbc) h (fst (sense fbc w)))); [lia|].
  reflexivity.
Qed.

(** What fbcRunCompletion returns, for any timeout: the time check of the
    last evaluation of the loop condition.  It returns true when the last
    step's result was not 0 while time was left (or the timeout is 0), and
    false when the deadline [start + timeout] had passed, whatever the last
    step's result. *)
Theorem fbcRunCompletion_flag (fuel : nat) (fbc : fbc_t W) (timeout : Z)
    (h : stall_hist) (w : W) (flag : bool) (fbc' : fbc_t W)
    (h' : stall_hist) (w' : W) :
  fbcRunCompletion P fuel fbc timeout h w = Some (flag, fbc', h', w') ->
  let start := fst (completion_entry P fbc h w) in
  let s0 := snd (completion_entry P fbc h w) in
  exists (k : nat) (sk : loop_state W),
    (k < fuel)%nat /\ loop_iter P k timeout start s0 = Some sk
    /\ flag = HAS_TIMED_OUT P timeout start (ls_now sk)
    /\ (flag = true -> loop_step_result P sk <> 0)
    /\ (flag = false ->
        timeout <> 0
        /\ to_ulong (ulong_bits P) (start + timeout) < ls_now sk).
Proof.
  intros H start s0. rewrite fbcRunCompletion_unfold in H.
  apply completion_loop_returns in H. destruct H as (k & sk & Hk & Hi & Hb).
  apply completion_body_return in Hb. destruct Hb as [Hwhy Hres].
  assert (Hflag : flag = HAS_TIMED_OUT P timeout start (ls_now sk))
    by (inversion Hres; reflexivity).
  clear Hres. fold start in Hwhy. rewrite <- Hflag in Hwhy.
  exists k, sk. split; [exact Hk|]. split; [exact Hi|].
  split; [exact Hflag|]. split.
  - intros Ht. rewrite Ht in Hwhy.
    destruct Hwhy as [N|F]; [exact N|discriminate].
  - intros Hf. rewrite Hf in Hflag. symmetry in Hflag.
    unfold HAS_TIMED_OUT in Hflag. apply orb_false_iff in Hflag.
    destruct Hflag as [Hz Hd]. split.
    + apply Z.eqb_neq. exact Hz.
    + apply Z.leb_gt. exact Hd.
Qed.

End Properties.

(** * Further properties of fbc.c *)

Section FurtherProperties.

Context {W : Type}.
Variable P : platform W.

(** ** The output of a control step *)

Lemma deadband_clamp_outside (d : fbc_fields) (o : Z) :
  outside_deadband d (deadband_clamp d o)
  /\ Z.sgn (deadband_clamp d o) = Z.sgn o
  /\ Z.abs o <= Z.abs (deadband_clamp d o)
  /\ (deadband_clamp d o = o
      \/ 0 < o < pos_deadband d \/ neg_deadband d < o < 0).
Proof.
  unfold outside_deadband, deadband_clamp.
  destruct (Z.ltb_spec o (pos_deadband d)), (Z.ltb_spec 0 o),
    (Z.ltb_spec (neg_deadband d) o), (Z.ltb_spec o 0); simpl; lia.
Qed.

(** What fbcGenerateOutput returns is never strictly between 0 and
    [pos_deadband] nor strictly between [neg_deadband] and 0, whatever the
    two bounds are; it has the sign of what the control law computed and at
    least its magnitude; it is the computed output itself unless that lay
    inside one of the two ranges; and clamping it again changes nothing. *)
Theorem fbcGenerateOutput_outside_deadband (fbc : fbc_t W) (w : W) :
  let d := fields fbc in
  let o :=
    fst (compute fbc d (step_error d (fst (sense fbc w))) (snd (sense fbc w)))
  in
  let out := fst (fst (fbcGenerateOutput P fbc w)) in
  outside_deadband d out
  /\ Z.sgn out = Z.sgn o
  /\ Z.abs o <= Z.abs out
  /\ (out = o \/ 0 < o < pos_deadband d \/ neg_deadband d < o < 0)
  /\ deadband_clamp d out = out.
Proof.
  cbv zeta. rewrite fbcGenerateOutput_unfold. cbv zeta. simpl fst.
  set (o := fst (compute fbc (fields fbc)
                   (step_error (fields fbc) (fst (sense fbc w)))
                   (snd (sense fbc w)))).
  destruct (deadband_clamp_outside (fields fbc) o) as (Ho & Hs & Ha & He).
  repeat (split; [assumption|]).
  destruct (deadband_clamp_outside (fields fbc)
              (deadband_clamp (fields fbc) o)) as (_ & _ & _ & [E|[E|E]]);
    [exact E| |]; destruct Ho as [Hp Hn]; contradiction.
Qed.

(** ** What a run of control steps leaves alone *)

Lemma fbcRunContinuous_frame (fbc : fbc_t W) (h : stall_hist) (w : W) :
  let fbc1 := snd (fst (fst (fbcRunContinuous P fbc h w))) in
  fbc1 =
  set_fields fbc
    (set_prevExecution
       (set_confidence (fields fbc)
          (next_confidence (fields fbc)
             (step_error (fields fbc) (fst (sense fbc w)))))
       (_prevExecution (fields fbc1))).
Proof.
  cbv zeta. rewrite fbcRunContinuous_unfold. cbv zeta. simpl.
  rewrite fbcGenerateOutput_unfold. reflexivity.
Qed.

Lemma run_continuous_members (n : nat) (fbc : fbc_t W) (h : stall_hist)
    (w : W) :
  let fbc' := fst (fst (run_continuous P n fbc h w)) in
  move fbc' = move fbc /\ sense fbc' = sense fbc
  /\ resetSense fbc' = resetSense fbc /\ stallDetect fbc' = stallDetect fbc
  /\ compute fbc' = compute fbc /\ resetController fbc' = resetController fbc
  /\ goal (fields fbc') = goal (fields fbc)
  /\ neg_deadband (fields fbc') = neg_deadband (fields fbc)
  /\ pos_deadband (fields fbc') = pos_deadband (fields fbc)
  /\ acceptableTolerance (fields fbc') = acceptableTolerance (fields fbc)
  /\ acceptableConfidence (fields fbc') = acceptableConfidence (fields fbc)
  /\ (n = O \/ 0 <= _confidence (fields fbc') < 2 ^ 32).
Proof.
  induction n as [|n IH].
  - simpl. repeat (split; [reflexivity|]). left. reflexivity.
  - cbv zeta in *. rewrite run_continuous_succ.
    rewrite fbcRunContinuous_frame. simpl.
    destruct IH as (H1 & H2 & H3 & H4 & H5 & H6 & H7 & H8 & H9 & H10 & H11
                    & _).
    repeat (split; [assumption|]). right.
    unfold next_confidence. destruct (in_tolerance _ _);
      [apply to_uint_range|lia].
Qed.

(** A run of control steps changes two members of the controller only, the
    confidence counter and the timestamp: the six capabilities, the goal
    and the thresholds are after the run what they were before it, and the
    counter is within the range of an unsigned int once a step has run. *)
Theorem run_continuous_frame (n : nat) (fbc : fbc_t W) (h : stall_hist)
    (w : W) :
  let fbc' := fst (fst (run_continuous P n fbc h w)) in
  move fbc' = move fbc /\ sense fbc' = sense fbc
  /\ resetSense fbc' = resetSense fbc /\ stallDetect fbc' = stallDetect fbc
  /\ compute fbc' = compute fbc /\ resetController fbc' = resetController fbc
  /\ goal (fields fbc') = goal (fields fbc)
  /\ neg_deadband (fields fbc') = neg_deadband (fields fbc)
  /\ pos_deadband (fields fbc') = pos_deadband (fields fbc)
  /\ acceptableTolerance (fields fbc') = acceptableTolerance (fields fbc)
  /\ acceptableConfidence (fields fbc') = acceptableConfidence (fields fbc)
  /\ (n = O \/ 0 <= _confidence (fields fbc') < 2 ^ 32).
Proof. exact (run_continuous_members n fbc h w). Qed.

(** ** The commands that reach the actuator *)

Section ActuatorLog.

Variable log : W -> list Z.
Variable fbc : fbc_t W.

Hypothesis log_move : forall v w, log (move fbc v w) = v :: log w.
Hypothesis log_sense : forall w, log (snd (sense fbc w)) = log w.
Hypothesis log_compute :
  forall d e w, log (snd (compute fbc d e w)) = log w.
Hypothesis log_time : forall w, log (snd (CUR_TIME P w)) = log w.
Hypothesis log_stall :
  forall f, stallDetect fbc = Some (custom_stallDetect f) ->
  forall d w, log (snd (f d w)) = log w.

Lemma log_fbcStallDetect (c : fbc_t W) (h : stall_hist) (w : W) :
  sense c = sense fbc -> log (snd (fbcStallDetect c h w)) = log w.
Proof.
  intros Hs. rewrite fbcStallDetect_unfold. cbv zeta. rewrite Hs.
  destruct (at_deadband (fields c)); simpl; [apply log_sense|].
  destruct (acceptableConfidence (fields c) <? _); simpl;
    rewrite !log_sense; reflexivity.
Qed.

Lemma log_fbcIsConfident (c : fbc_t W) (h : stall_hist) (w : W) :
  sense c = sense fbc -> stallDetect c = stallDetect fbc ->
  log (snd (fbcIsConfident P c h w)) = log w.
Proof.
  intros Hs Hd. rewrite fbcIsConfident_unfold. cbv zeta.
  destruct (stallDetect c) as [[|f]|] eqn:E; simpl.
  - apply log_fbcStallDetect. exact Hs.
  - destruct (f (fields c) w) as [b w1] eqn:F. simpl.
    change w1 with (snd (b, w1)). rewrite <- F.
    apply (log_stall f). rewrite <- Hd. reflexivity.
  - reflexivity.
Qed.

Lemma log_fbcRunContinuous (c : fbc_t W) (h : stall_hist) (w : W) :
  move c = move fbc -> sense c = sense fbc -> compute c = compute fbc ->
  stallDetect c = stallDetect fbc ->
  log (snd (fbcRunContinuous P c h w))
  = fst (fst (fbcGenerateOutput P c w)) :: log w.
Proof.
  intros Hm Hs Hc Hd. rewrite fbcRunContinuous_unfold. cbv zeta.
  simpl snd. rewrite log_fbcIsConfident.
  - rewrite fbcGenerateOutput_unfold. cbv zeta. simpl.
    rewrite Hm, log_move, log_time, Hc, log_compute, Hs, log_sense.
    reflexivity.
  - rewrite fbcGenerateOutput_unfold. exact Hs.
  - rewrite fbcGenerateOutput_unfold. exact Hd.
Qed.

(** When the actuator keeps a log of the commands it is given and the other
    callbacks leave that log alone, a run of [n] control steps adds exactly
    [n] commands to it, one per step, and none of them lies strictly inside
    a dead-band range: the actuator is never given a non-zero command
    below the dead-band bounds. *)
Theorem run_continuous_commands (n : nat) (h : stall_hist) (w : W) :
  exists cmds : list Z,
    log (snd (run_continuous P n fbc h w)) = cmds ++ log w
    /\ length cmds = n
    /\ Forall (outside_deadband (fields fbc)) cmds.
Proof.
  induction n as [|n IH].
  - exists []. simpl. repeat split. constructor.
  - destruct IH as (cmds & Hlog & Hlen & Hall).
    pose proof (run_continuous_members n fbc h w) as Hf. cbv zeta in Hf.
    destruct Hf as (Hm & Hs & _ & Hd & Hc & _ & _ & Hn & Hp & _).
    assert (Ho : outside_deadband
                   (fields (fst (fst (run_continuous P n fbc h w))))
                   (fst (fst (fbcGenerateOutput P
                                (fst (fst (run_continuous P n fbc h w)))
                                (snd (run_continuous P n fbc h w)))))).
    { rewrite fbcGenerateOutput_unfold. cbv zeta. simpl fst.
      apply deadband_clamp_outside. }
    pose proof (log_fbcRunContinuous
                  (fst (fst (run_continuous P n fbc h w)))
                  (snd (fst (run_continuous P n fbc h w)))
                  (snd (run_continuous P n fbc h w)) Hm Hs Hc Hd) as Hstep.
    simpl. destruct (run_continuous P n fbc h w) as [[fbc1 h1] w1].
    simpl in *.
    destruct (fbcRunContinuous P fbc1 h1 w1) as [[[r fbc2] h2] w2].
    simpl in *.
    exists (fst (fst (fbcGenerateOutput P fbc1 w1)) :: cmds).
    split; [rewrite Hstep, Hlog; reflexivity|].
    split; [simpl; rewrite Hlen; reflexivity|].
    constructor; [|exact Hall].
    unfold outside_deadband in *. rewrite <- Hn, <- Hp. exact Ho.
Qed.

End ActuatorLog.

(** ** The tests of lines 36 and 109 without overflow *)

Lemma to_int_small (z : Z) : - 2 ^ 31 <= z < 2 ^ 31 -> to_int z = z.
Proof.
  intros Hz. unfold to_int. rewrite Z.mod_small; lia.
Qed.

Lemma to_uint_c_abs_to_int (z : Z) :
  - 2 ^ 31 < z < 2 ^ 31 -> to_uint (c_abs (to_int z)) = Z.abs z.
Proof.
  intros Hz. rewrite to_int_small by lia. unfold c_abs.
  rewrite to_int_small by lia. apply to_uint_small. lia.
Qed.

(** As long as [goal - sense()] does not leave the range of an int (and is
    not INT_MIN) and the tolerance is not negative, the test of line 109 is
    the plain comparison [|goal - sense()| < acceptableTolerance], and the
    confidence counter moves by it: one up (modulo 2^32) when the comparison
    holds, back to 0 when it does not. *)
Theorem in_tolerance_no_overflow (fbc : fbc_t W) (h : stall_hist) (w : W) :
  let d := fields fbc in
  let s := fst (sense fbc w) in
  - 2 ^ 31 < goal d - s < 2 ^ 31 ->
  0 <= acceptableTolerance d < 2 ^ 31 ->
  step_in_tolerance fbc w = (Z.abs (goal d - s) <? acceptableTolerance d)
  /\ _confidence (fields (snd (fst (fst (fbcRunContinuous P fbc h w)))))
     = (if Z.abs (goal d - s) <? acceptableTolerance d
        then to_uint (_confidence d + 1) else 0).
Proof.
  intros d s He Ht.
  assert (E : step_in_tolerance fbc w
              = (Z.abs (goal d - s) <? acceptableTolerance d)).
  { unfold step_in_tolerance, in_tolerance, step_error. fold d s.
    rewrite to_uint_c_abs_to_int by lia.
    rewrite (to_uint_small (acceptableTolerance d)) by lia. reflexivity. }
  split; [exact E|].
  destruct (fbcRunContinuous_controller P fbc h w) as (Hc & _).
  rewrite Hc, E. reflexivity.
Qed.

(** As long as the difference between the sensor reading and [_prev] does
    not leave the range of an int (and is not INT_MIN) and the tolerance is
    not negative, a call that line 32 does not exempt counts the cycle as
    stuck exactly when [|sense() - _prev| < max(1, acceptableTolerance / 8)];
    so with a tolerance below 16 a cycle is stuck only when the sensor
    reads exactly [_prev]. *)
Theorem stuck_cycle_no_overflow (fbc : fbc_t W) (h : stall_hist) (w : W) :
  let d := fields fbc in
  let s := fst (sense fbc w) in
  - 2 ^ 31 < s - _prev h < 2 ^ 31 ->
  0 <= acceptableTolerance d < 2 ^ 31 ->
  at_deadband d = false ->
  stuck_cycle fbc h w
  = (Z.abs (s - _prev h) <? Z.max 1 (acceptableTolerance d / 8))
  /\ (acceptableTolerance d < 16 ->
      stuck_cycle fbc h w = true -> s = _prev h).
Proof.
  intros d s Hs Ht Hd.
  assert (Hm : min_stuck d = Z.max 1 (acceptableTolerance d / 8)).
  { rewrite min_stuck_max. rewrite Z.shiftr_div_pow2 by lia.
    change (2 ^ 3) with 8. rewrite to_uint_small; [reflexivity|].
    split; [apply Z.div_pos; lia|].
    apply Z.div_lt_upper_bound; lia. }
  assert (E : stuck_cycle fbc h w
              = (Z.abs (s - _prev h) <? Z.max 1 (acceptableTolerance d / 8))).
  { unfold stuck_cycle, stall_delta. fold d s. rewrite Hd, Hm.
    rewrite to_uint_c_abs_to_int by lia. reflexivity. }
  split; [exact E|].
  intros H16 Hst. rewrite E in Hst. apply Z.ltb_lt in Hst.
  assert (acceptableTolerance d / 8 <= 1)
    by (apply Z.lt_succ_r, Z.div_lt_upper_bound; lia).
  lia.
Qed.

(** ** When the stall detector reports *)

(** For a confidence threshold that is not negative, fbcStallDetect
    reports a stall exactly on a stuck cycle whose incremented count exceeds
    the threshold: never on a cycle exempted by line 32, never on a cycle in
    which the sensor moved by [min_stuck] or more.  Whatever statics it
    starts from, it leaves a count between 0 and the threshold. *)
Theorem fbcStallDetect_reports_iff (fbc : fbc_t W) (h : stall_hist) (w : W) :
  0 <= acceptableConfidence (fields fbc) ->
  (fst (fst (fbcStallDetect fbc h w)) = true <->
   stuck_cycle fbc h w = true
   /\ acceptableConfidence (fields fbc) < to_uint (_count h + 1))
  /\ 0 <= _count (snd (fst (fbcStallDetect fbc h w)))
     <= acceptableConfidence (fields fbc).
Proof.
  intros Hn. rewrite fbcStallDetect_unfold. cbv zeta.
  unfold stuck_cycle, next_count.
  destruct (at_deadband (fields fbc)); simpl.
  - split; [|lia]. split; [discriminate|]. intros [H _]. discriminate.
  - pose proof (to_uint_range (_count h + 1)) as Hr.
    destruct (stall_delta h (fst (sense fbc w)) <? min_stuck (fields fbc)).
    + destruct (Z.ltb_spec (acceptableConfidence (fields fbc))
                  (to_uint (_count h + 1))); simpl.
      * split; [|lia]. split; auto.
      * split; [|lia]. split; [discriminate|]. intros [_ H']. lia.
    + destruct (Z.ltb_spec (acceptableConfidence (fields fbc)) 0); simpl;
        [lia|].
      split; [|lia]. split; [discriminate|]. intros [H' _]. discriminate.
Qed.

Lemma stall_checks_app (a b : nat) (fbc : fbc_t W) (h : stall_hist) (w : W) :
  stall_checks (a + b) fbc h w =
  (let r1 := stall_checks a fbc h w in
   let r2 := stall_checks b fbc (snd (fst r1)) (snd r1) in
   (fst (fst r1) ++ fst (fst r2), snd (fst r2), snd r2)).
Proof.
  induction b as [|b IH]; cbv zeta in *.
  - rewrite Nat.add_0_r. simpl. rewrite app_nil_r.
    destruct (stall_checks a fbc h w) as [[rs h1] w1]. reflexivity.
  - rewrite Nat.add_succ_r. simpl. rewrite IH.
    destruct (stall_checks a fbc h w) as [[rs1 h1] w1]. simpl.
    destruct (stall_checks b fbc h1 w1) as [[rs2 h2] w2]. simpl.
    destruct (fbcStallDetect fbc h2 w2) as [[r h3] w3]. simpl.
    rewrite app_assoc. reflexivity.
Qed.

Section FixedSensor.

Variable fbc : fbc_t W.
Variable v : Z.

Hypothesis sense_fixed : forall w, sense fbc w = (v, w).
Hypothesis not_exempt : at_deadband (fields fbc) = false.
Hypothesis threshold_range :
  0 <= acceptableConfidence (fields fbc) < 2 ^ 32 - 1.
Hypothesis away_from_zero :
  min_stuck (fields fbc) <= stall_delta stall_hist_init v.

Lemma stall_delta_same (c : Z) :
  stall_delta {| _prev := v; _count := c |} v = 0.
Proof. unfold stall_delta. simpl. rewrite Z.sub_diag. reflexivity. Qed.

Lemma min_stuck_pos : 0 < min_stuck (fields fbc).
Proof. rewrite min_stuck_max. lia. Qed.

Lemma fixed_sensor_counting (j : nat) (w : W) :
  Z.of_nat j <= acceptableConfidence (fields fbc) ->
  stall_checks j fbc {| _prev := v; _count := 0 |} w
  = (repeat false j, {| _prev := v; _count := Z.of_nat j |}, w).
Proof.
  induction j as [|j IH]; intros Hj; [reflexivity|].
  simpl stall_checks. rewrite IH by lia.
  rewrite fbcStallDetect_unfold. cbv zeta.
  rewrite not_exempt, !sense_fixed. simpl fst. simpl snd.
  unfold next_count. rewrite stall_delta_same.
  pose proof min_stuck_pos as Hm.
  destruct (Z.ltb_spec 0 (min_stuck (fields fbc))); [|lia].
  simpl _count. rewrite to_uint_small by lia.
  destruct (Z.ltb_spec (acceptableConfidence (fields fbc)) (Z.of_nat j + 1));
    [lia|].
  rewrite <- repeat_cons. simpl repeat.
  replace (Z.of_nat j + 1) with (Z.of_nat (S j)) by lia. reflexivity.
Qed.

Lemma fixed_sensor_period (w : W) :
  stall_checks (Z.to_nat (acceptableConfidence (fields fbc)) + 2) fbc
    stall_hist_init w
  = (repeat false (Z.to_nat (acceptableConfidence (fields fbc)) + 1)
       ++ [true],
     stall_hist_init, w).
Proof.
  set (n := Z.to_nat (acceptableConfidence (fields fbc))).
  assert (Hfirst : fbcStallDetect fbc stall_hist_init w
                   = (false, {| _prev := v; _count := 0 |}, w)).
  { rewrite fbcStallDetect_unfold. cbv zeta.
    rewrite not_exempt, !sense_fixed. simpl fst. simpl snd.
    unfold next_count.
    destruct (Z.ltb_spec (stall_delta stall_hist_init v)
                (min_stuck (fields fbc))); [lia|].
    destruct (Z.ltb_spec (acceptableConfidence (fields fbc)) 0); [lia|].
    reflexivity. }
  assert (Hlast : fbcStallDetect fbc {| _prev := v; _count := Z.of_nat n |} w
                  = (true, stall_hist_init, w)).
  { rewrite fbcStallDetect_unfold. cbv zeta.
    rewrite not_exempt, !sense_fixed. simpl fst. simpl snd.
    unfold next_count. rewrite stall_delta_same.
    pose proof min_stuck_pos as Hm.
    destruct (Z.ltb_spec 0 (min_stuck (fields fbc))); [|lia].
    simpl _count. rewrite to_uint_small by (subst n; lia).
    destruct (Z.ltb_spec (acceptableConfidence (fields fbc))
                (Z.of_nat n + 1)); [reflexivity|subst n; lia]. }
  replace (n + 2)%nat with (1 + (n + 1))%nat by lia.
  rewrite stall_checks_app. cbv zeta.
  change (stall_checks 1 fbc stall_hist_init w)
    with (let '(r, h2, w2) := fbcStallDetect fbc stall_hist_init w in
          ([] ++ [r], h2, w2)).
  rewrite Hfirst. simpl fst. simpl snd.
  replace (n + 1)%nat with (S n) by lia. simpl stall_checks.
  rewrite fixed_sensor_counting by (subst n; lia).
  rewrite Hlast. simpl. rewrite app_comm_cons.
  change (false :: repeat false n) with (repeat false (S n)). reflexivity.
Qed.

(** A sensor stuck at one value away from 0, with the output member at
    neither dead-band bound: starting from fresh statics the detector
    reports the stall once every [acceptableConfidence + 2] checks, at the
    last check of each such period, and never in between; after each
    report the statics are fresh again. *)
Theorem fixed_sensor_stall_period (k : nat) (w : W) :
  let period := (Z.to_nat (acceptableConfidence (fields fbc)) + 2)%nat in
  stall_checks (k * period) fbc stall_hist_init w
  = (concat (repeat (repeat false (period - 1) ++ [true]) k),
     stall_hist_init, w).
Proof.
  cbv zeta. induction k as [|k IH]; [reflexivity|].
  replace (S k * (Z.to_nat (acceptableConfidence (fields fbc)) + 2))%nat
    with (k * (Z.to_nat (acceptableConfidence (fields fbc)) + 2)
          + (Z.to_nat (acceptableConfidence (fields fbc)) + 2))%nat by lia.
  rewrite stall_checks_app. cbv zeta. rewrite IH. simpl fst. simpl snd.
  rewrite fixed_sensor_period. simpl fst. simpl snd.
  replace (Z.to_nat (acceptableConfidence (fields fbc)) + 2 - 1)%nat
    with (Z.to_nat (acceptableConfidence (fields fbc)) + 1)%nat by lia.
  f_equal. f_equal.
  simpl repeat. rewrite repeat_cons, concat_app. simpl concat.
  rewrite app_nil_r. reflexivity.
Qed.

End FixedSensor.

(** ** How long fbcRunCompletion runs *)

Lemma completion_loop_flag_no_timeout (fuel : nat) (start : Z)
    (s : loop_state W) (res : completion W) :
  completion_loop P fuel 0 start s = Some res ->
  fst (fst (fst res)) = true.
Proof.
  intros H. apply completion_loop_returns in H.
  destruct H as (k & sk & _ & _ & Hb).
  apply completion_body_return in Hb. destruct Hb as [_ Hres].
  subst res. reflexivity.
Qed.

(** As long as every step returns 0 the loop can only end on the time
    check. *)
Lemma completion_loop_zero_prefix (I : nat -> loop_state W -> Prop)
    (K : nat) (timeout start : Z) :
  (forall k s, (k < K)%nat -> I k s ->
     loop_step_result P s = 0
     /\ forall s', completion_body P timeout start s = inr s' -> I (S k) s') ->
  forall (fuel k : nat) (s : loop_state W), (k + fuel <= K)%nat -> I k s ->
  forall res, completion_loop P fuel timeout start s = Some res ->
  fst (fst (fst res)) = false.
Proof.
  intros Hstep. induction fuel as [|fuel IH]; intros k s Hk Hi res H;
    [discriminate H|].
  simpl in H. destruct (Hstep k s) as [Hr Hnext]; [lia|exact Hi|].
  destruct (completion_body P timeout start s) as [res0|s1] eqn:Hb.
  - inversion H; subst res0. apply completion_body_return in Hb.
    destruct Hb as [[N|F] Hres]; [contradiction|].
    subst res. exact F.
  - apply (IH (S k) s1); [lia|apply Hnext; reflexivity|exact H].
Qed.

Lemma completion_entry_state (fbc : fbc_t W) (h : stall_hist) (w : W) :
  ls_fbc (snd (completion_entry P fbc h w)) = fbc
  /\ ls_hist (snd (completion_entry P fbc h w)) = h.
Proof.
  unfold completion_entry. destruct (millis P w) as [now w1].
  destruct (millis P w1) as [start w2]. split; reflexivity.
Qed.

Lemma completion_body_next (timeout start : Z) (s s' : loop_state W) :
  completion_body P timeout start s = inr s' ->
  ls_fbc s' = snd (fst (fst (fbcRunContinuous P (ls_fbc s) (ls_hist s)
                               (ls_world s))))
  /\ ls_hist s' = snd (fst (fbcRunContinuous P (ls_fbc s) (ls_hist s)
                              (ls_world s))).
Proof.
  rewrite completion_body_unfold. cbv zeta.
  destruct ((loop_step_result P s =? 0)
            && HAS_TIMED_OUT P timeout start (ls_now s)); [|discriminate].
  intros H. inversion H. split; reflexivity.
Qed.

(** What one step does to the counters when neither can yet reach the
    threshold. *)
Lemma fbcRunContinuous_below (fbc : fbc_t W) (h : stall_hist) (w : W)
    (k : Z) :
  stallDetect fbc = None \/ stallDetect fbc = Some builtin_stallDetect ->
  acceptableConfidence (fields fbc) < 2 ^ 32 ->
  0 <= _confidence (fields fbc) <= k -> 0 <= _count h <= k ->
  k + 1 < acceptableConfidence (fields fbc) ->
  let c := fbcRunContinuous P fbc h w in
  fst (fst (fst c)) = 0
  /\ stallDetect (snd (fst (fst c))) = stallDetect fbc
  /\ acceptableConfidence (fields (snd (fst (fst c))))
     = acceptableConfidence (fields fbc)
  /\ 0 <= _confidence (fields (snd (fst (fst c)))) <= k + 1
  /\ 0 <= _count (snd (fst c)) <= k + 1.
Proof.
  intros Hsd Hlt Hc Hn Hk. cbv zeta.
  destruct (fbcRunContinuous_controller P fbc h w) as (Ec & Ea & Es).
  assert (Hc1 : 0 <= _confidence
                       (fields (snd (fst (fst (fbcRunContinuous P fbc h w)))))
                <= k + 1).
  { rewrite Ec. destruct (step_in_tolerance fbc w); [|lia].
    rewrite to_uint_small; lia. }
  split; [|split; [exact Es|split; [exact Ea|split; [exact Hc1|]]]].
  - rewrite fbcRunContinuous_unfold in *. cbv zeta in *. cbn [fst snd] in *.
    rewrite fbcIsConfident_unfold. cbv zeta. rewrite Ea, Es.
    destruct (Z.leb_spec (acceptableConfidence (fields fbc))
                (_confidence (fields (snd (fst (fbcGenerateOutput P fbc w))))));
      [lia|].
    destruct Hsd as [Hsd|Hsd]; rewrite Hsd; [reflexivity|]. cbn [call_stallDetect fst snd].
    match goal with
    | |- context [fbcStallDetect ?c ?hh ?ww] =>
        destruct (fbcStallDetect_below c hh ww) as [Hr _];
        [rewrite Ea; lia|rewrite Ea; lia|rewrite Hr; reflexivity]
    end.
  - rewrite fbcRunContinuous_unfold in *. cbv zeta in *. cbn [fst snd] in *.
    rewrite fbcIsConfident_unfold. cbv zeta. rewrite Es.
    destruct Hsd as [Hsd|Hsd]; rewrite Hsd; cbn [call_stallDetect fst snd]; [lia|].
    match goal with
    | |- context [fbcStallDetect ?c ?hh ?ww] =>
        destruct (fbcStallDetect_below c hh ww) as [_ Hb];
        [rewrite Ea; lia|rewrite Ea; lia|lia]
    end.
Qed.

(** After fbcInit or fbcReset (confidence counter 0) and with fresh stall
    statics, a controller with no stall detection or the built-in one cannot
    be found CONFIDENT or stalled in fewer than [acceptableConfidence]
    steps: fbcRunCompletion with timeout 0 is still running after any
    smaller number of steps, and with a timeout it can only have returned
    false, on the time check. *)
Theorem fbcRunCompletion_min_steps (fuel : nat) (fbc : fbc_t W)
    (timeout : Z) (h : stall_hist) (w : W) :
  _confidence (fields fbc) = 0 -> _count h = 0 ->
  stallDetect fbc = None \/ stallDetect fbc = Some builtin_stallDetect ->
  acceptableConfidence (fields fbc) < 2 ^ 32 ->
  Z.of_nat fuel < acceptableConfidence (fields fbc) ->
  (timeout = 0 -> fbcRunCompletion P fuel fbc timeout h w = None)
  /\ (forall res, fbcRunCompletion P fuel fbc timeout h w = Some res ->
      fst (fst (fst res)) = false).
Proof.
  intros H0 Hh Hsd Hlt Hfuel.
  assert (Hflag : forall res,
             fbcRunCompletion P fuel fbc timeout h w = Some res ->
             fst (fst (fst res)) = false).
  { intros res H. rewrite fbcRunCompletion_unfold in H.
    destruct (completion_entry_state fbc h w) as [Ef Eh].
    set (c := acceptableConfidence (fields fbc)) in *.
    apply (completion_loop_zero_prefix
             (fun k s =>
                (stallDetect (ls_fbc s) = None
                 \/ stallDetect (ls_fbc s) = Some builtin_stallDetect)
                /\ acceptableConfidence (fields (ls_fbc s)) = c
                /\ 0 <= _confidence (fields (ls_fbc s)) <= Z.of_nat k
                /\ 0 <= _count (ls_hist s) <= Z.of_nat k)
             fuel timeout (fst (completion_entry P fbc h w)))
      with (fuel := fuel) (k := O) (s := snd (completion_entry P fbc h w));
      [|lia| |exact H].
    - intros k s Hk (Is & Ia & Ic & In).
      destruct (fbcRunContinuous_below (ls_fbc s) (ls_hist s) (ls_world s)
                  (Z.of_nat k) Is) as (Hr & Hs' & Ha' & Hc' & Hn');
        try lia.
      split; [exact Hr|]. intros s' Hb.
      apply completion_body_next in Hb. destruct Hb as [Ef' Eh'].
      rewrite Ef', Eh', Hs', Ha'. repeat split; try assumption; lia.
    - rewrite Ef, Eh. repeat split; try assumption; lia. }
  split; [|exact Hflag].
  intros Ht. subst timeout.
  destruct (fbcRunCompletion P fuel fbc 0 h w) as [res|] eqn:E;
    [|reflexivity].
  pose proof (Hflag res eq_refl) as Hf.
  rewrite fbcRunCompletion_unfold in E.
  apply completion_loop_flag_no_timeout in E. congruence.
Qed.

(** With [acceptableTolerance = 0] no error is within the tolerance, not
    even 0: every step resets the confidence counter.  With a positive
    confidence threshold and no stall detection every step then returns 0,
    so fbcRunCompletion with timeout 0 never returns, and with a timeout it
    only ever returns false, on the time check. *)
Theorem zero_tolerance_never_confident (fuel : nat) (fbc : fbc_t W)
    (timeout : Z) (h : stall_hist) (w : W) :
  acceptableTolerance (fields fbc) = 0 ->
  0 < acceptableConfidence (fields fbc) ->
  stallDetect fbc = None ->
  step_in_tolerance fbc w = false
  /\ fst (fst (fst (fbcRunContinuous P fbc h w))) = 0
  /\ (timeout = 0 -> fbcRunCompletion P fuel fbc timeout h w = None)
  /\ (forall res, fbcRunCompletion P fuel fbc timeout h w = Some res ->
      fst (fst (fst res)) = false).
Proof.
  intros Ht Hc Hsd.
  assert (Hstep : forall (c : fbc_t W) hh ww,
             acceptableTolerance (fields c) = 0 ->
             0 < acceptableConfidence (fields c) ->
             stallDetect c = None ->
             step_in_tolerance c ww = false
             /\ fst (fst (fst (fbcRunContinuous P c hh ww))) = 0
             /\ acceptableTolerance
                  (fields (snd (fst (fst (fbcRunContinuous P c hh ww))))) = 0
             /\ 0 < acceptableConfidence
                      (fields (snd (fst (fst (fbcRunContinuous P c hh ww)))))
             /\ stallDetect (snd (fst (fst (fbcRunContinuous P c hh ww))))
                = None).
  { intros c hh ww Et Ec Es.
    assert (Hin : step_in_tolerance c ww = false).
    { unfold step_in_tolerance, in_tolerance. rewrite Et.
      apply Z.ltb_ge. change (to_uint 0) with 0. apply to_uint_range. }
    destruct (fbcRunContinuous_controller P c hh ww) as (E1 & E2 & E3).
    rewrite Hin in E1.
    split; [exact Hin|]. split.
    - rewrite fbcRunContinuous_unfold in *. cbv zeta in *. simpl in *.
      rewrite fbcIsConfident_unfold. cbv zeta. rewrite E3, Es, E2, E1.
      simpl. destruct (Z.leb_spec (acceptableConfidence (fields c)) 0);
        [lia|reflexivity].
    - rewrite E2, E3. split; [|split; assumption].
      rewrite fbcRunContinuous_unfold. cbv zeta. simpl.
      rewrite fbcGenerateOutput_unfold. cbv zeta. simpl. exact Et. }
  destruct (Hstep fbc h w Ht Hc Hsd) as (Hin & Hr & _).
  split; [exact Hin|]. split; [exact Hr|].
  assert (Hflag : forall res,
             fbcRunCompletion P fuel fbc timeout h w = Some res ->
             fst (fst (fst res)) = false).
  { intros res H. rewrite fbcRunCompletion_unfold in H.
    destruct (completion_entry_state fbc h w) as [Ef Eh].
    apply (completion_loop_zero_prefix
             (fun _ s =>
                acceptableTolerance (fields (ls_fbc s)) = 0
                /\ 0 < acceptableConfidence (fields (ls_fbc s))
                /\ stallDetect (ls_fbc s) = None)
             fuel timeout (fst (completion_entry P fbc h w)))
      with (fuel := fuel) (k := O) (s := snd (completion_entry P fbc h w));
      [|lia| |exact H].
    - intros k s _ (It & Ic & Is).
      destruct (Hstep (ls_fbc s) (ls_hist s) (ls_world s) It Ic Is)
        as (_ & Hr' & Ht' & Hc' & Hs').
      split; [exact Hr'|]. intros s' Hb.
      apply completion_body_next in Hb. destruct Hb as [Ef' _].
      rewrite Ef'. repeat split; assumption.
    - rewrite Ef. repeat split; assumption. }
  split; [|exact Hflag].
  intros Hz. subst timeout.
  destruct (fbcRunCompletion P fuel fbc 0 h w) as [res|] eqn:E;
    [|reflexivity].
  pose proof (Hflag res eq_refl) as Hf.
  rewrite fbcRunCompletion_unfold in E.
  apply completion_loop_flag_no_timeout in E. congruence.
Qed.

Lemma HAS_TIMED_OUT_deadline (timeout start now : Z) :
  timeout <> 0 ->
  0 <= start + timeout < 2 ^ ulong_bits P ->
  HAS_TIMED_OUT P timeout start now = (now <=? start + timeout).
Proof.
  intros Ht Hd. unfold HAS_TIMED_OUT, to_ulong.
  rewrite Z.mod_small by exact Hd.
  destruct (Z.eqb_spec timeout 0); [contradiction|reflexivity].
Qed.

Lemma completion_loop_enough_fuel (timeout start : Z) :
  (forall now w, 0 <= now ->
     now + FBC_LOOP_INTERVAL P < 2 ^ ulong_bits P ->
     fst (taskDelayUntil P now (FBC_LOOP_INTERVAL P) w)
     = now + FBC_LOOP_INTERVAL P) ->
  0 < FBC_LOOP_INTERVAL P -> timeout <> 0 ->
  0 <= start + timeout ->
  start + timeout + FBC_LOOP_INTERVAL P < 2 ^ ulong_bits P ->
  forall (fuel : nat) (s : loop_state W),
    0 <= ls_now s -> (1 <= fuel)%nat ->
    start + timeout - ls_now s < (Z.of_nat fuel - 1) * FBC_LOOP_INTERVAL P ->
    completion_loop P fuel timeout start s <> None.
Proof.
  intros Hdelay Hi Ht Hd0 Hd1.
  induction fuel as [|fuel IH]; intros s Hnow Hf Hlt; [lia|].
  simpl. destruct (completion_body P timeout start s) as [res|s1] eqn:Hb;
    [discriminate|].
  apply completion_body_wait in Hb. destruct Hb as (_ & Hhas & Hn).
  rewrite HAS_TIMED_OUT_deadline in Hhas by lia.
  apply Z.leb_le in Hhas.
  rewrite Hdelay in Hn by lia.
  apply IH; nia.
Qed.

(** With a timeout other than 0 fbcRunCompletion returns, whatever the
    steps report: when each wait moves [now] on by FBC_LOOP_INTERVAL and the
    deadline [start + timeout] plus one interval still fits an unsigned
    long, the loop returns within [(deadline - now) / interval + 2]
    evaluations of its condition. *)
Theorem fbcRunCompletion_terminates (fuel : nat) (fbc : fbc_t W)
    (timeout : Z) (h : stall_hist) (w : W) :
  let start := fst (completion_entry P fbc h w) in
  let now := ls_now (snd (completion_entry P fbc h w)) in
  (forall now' w', 0 <= now' ->
     now' + FBC_LOOP_INTERVAL P < 2 ^ ulong_bits P ->
     fst (taskDelayUntil P now' (FBC_LOOP_INTERVAL P) w')
     = now' + FBC_LOOP_INTERVAL P) ->
  0 < FBC_LOOP_INTERVAL P -> timeout <> 0 ->
  0 <= now -> 0 <= start + timeout ->
  start + timeout + FBC_LOOP_INTERVAL P < 2 ^ ulong_bits P ->
  Z.max 0 (start + timeout - now) / FBC_LOOP_INTERVAL P + 2 <= Z.of_nat fuel ->
  exists res, fbcRunCompletion P fuel fbc timeout h w = Some res.
Proof.
  intros start now Hdelay Hi Ht Hnow Hd0 Hd1 Hfuel.
  pose proof (Z.mul_succ_div_gt (Z.max 0 (start + timeout - now))
                (FBC_LOOP_INTERVAL P) Hi) as Hdiv.
  assert (0 <= Z.max 0 (start + timeout - now) / FBC_LOOP_INTERVAL P)
    by (apply Z.div_pos; lia).
  destruct (fbcRunCompletion P fuel fbc timeout h w) as [res|] eqn:E;
    [exists res; reflexivity|].
  exfalso. rewrite fbcRunCompletion_unfold in E. revert E.
  apply completion_loop_enough_fuel; try assumption; try lia.
  fold start now. nia.
Qed.


(** ** A goal change keeps the confidence *)

(** fbcSetGoal does not touch the confidence counter: with no stall
    detection or the built-in one, fbcIsConfident right after a goal
    change answers exactly what it answered before it, so a controller
    that was CONFIDENT at the old goal is still reported CONFIDENT until
    the next control step. *)
Theorem fbcSetGoal_keeps_confidence (c : fbc_t W) (new_goal : Z) (w : W)
    (h : stall_hist) (w' : W) :
  stallDetect c = None \/ stallDetect c = Some builtin_stallDetect ->
  exists c' : fbc_t W,
    snd (fst (fbcSetGoal P (Some c) new_goal w)) = Some c'
    /\ goal (fields c') = new_goal
    /\ _confidence (fields c') = _confidence (fields c)
    /\ fbcIsConfident P c' h w' = fbcIsConfident P c h w'.
Proof.
  intros Hsd. unfold fbcSetGoal.
  destruct (Z.eqb_spec (goal (fields c)) new_goal) as [E|N].
  - exists c. repeat split. exact E.
  - destruct (CUR_TIME P w) as [t w1]. simpl.
    eexists. split; [reflexivity|]. split; [reflexivity|].
    split; [reflexivity|].
    rewrite !fbcIsConfident_unfold. cbv zeta. simpl.
    destruct Hsd as [Hsd|Hsd]; rewrite Hsd; [reflexivity|].
    simpl. rewrite !fbcStallDetect_unfold. reflexivity.
Qed.

(** ** The background task *)

(** Until a step returns non-zero or the time runs out, the loop of
    fbcRunCompletion goes through the very states of the loop of the
    background task: the two drivers differ only in when they stop. *)
Theorem fbcRunCompletion_follows_task (k : nat) (timeout start : Z)
    (s sk : loop_state W) :
  loop_iter P k timeout start s = Some sk ->
  sk = fbcTask_iter P k s.
Proof.
  revert s. induction k as [|k IH]; intros s H; simpl in *.
  - inversion H. reflexivity.
  - destruct (completion_body P timeout start s) as [res|s1] eqn:Hb;
      [discriminate|].
    rewrite (IH s1 H). f_equal.
    rewrite completion_body_unfold in Hb. cbv zeta in Hb.
    destruct ((loop_step_result P s =? 0)
              && HAS_TIMED_OUT P timeout start (ls_now s)); [|discriminate].
    inversion Hb. unfold fbcTask_body.
    destruct (fbcRunContinuous P (ls_fbc s) (ls_hist s) (ls_world s))
      as [[[r fbc1] h1] w1].
    simpl.
    destruct (taskDelayUntil P (ls_now s) (FBC_LOOP_INTERVAL P) w1).
    reflexivity.
Qed.

Lemma fbcTask_iter_succ (k : nat) (s : loop_state W) :
  fbcTask_iter P (S k) s = fbcTask_body P (fbcTask_iter P k s).
Proof.
  revert s. induction k as [|k IH]; intros s; [reflexivity|].
  change (fbcTask_iter P (S (S k)) s)
    with (fbcTask_iter P (S k) (fbcTask_body P s)).
  rewrite IH. reflexivity.
Qed.

Lemma fbcTask_body_unfold (s : loop_state W) :
  fbcTask_body P s =
  (let c := fbcRunContinuous P (ls_fbc s) (ls_hist s) (ls_world s) in
   let d := taskDelayUntil P (ls_now s) (FBC_LOOP_INTERVAL P) (snd c) in
   {| ls_now := fst d; ls_fbc := snd (fst (fst c)); ls_hist := snd (fst c);
      ls_world := snd d |}).
Proof.
  unfold fbcTask_body.
  destruct (fbcRunContinuous P (ls_fbc s) (ls_hist s) (ls_world s))
    as [[[r fbc1] h1] w1].
  cbv zeta. simpl.
  destruct (taskDelayUntil P (ls_now s) (FBC_LOOP_INTERVAL P) w1).
  reflexivity.
Qed.

Lemma fbcTask_iter_cadence (k : nat) (s : loop_state W) :
  (forall now w, 0 <= now ->
     now + FBC_LOOP_INTERVAL P < 2 ^ ulong_bits P ->
     fst (taskDelayUntil P now (FBC_LOOP_INTERVAL P) w)
     = now + FBC_LOOP_INTERVAL P) ->
  0 <= FBC_LOOP_INTERVAL P -> 0 <= ls_now s ->
  ls_now s + Z.of_nat k * FBC_LOOP_INTERVAL P < 2 ^ ulong_bits P ->
  let sk := fbcTask_iter P k s in
  ls_now sk = ls_now s + Z.of_nat k * FBC_LOOP_INTERVAL P
  /\ sense (ls_fbc sk) = sense (ls_fbc s)
  /\ move (ls_fbc sk) = move (ls_fbc s)
  /\ compute (ls_fbc sk) = compute (ls_fbc s)
  /\ stallDetect (ls_fbc sk) = stallDetect (ls_fbc s)
  /\ goal (fields (ls_fbc sk)) = goal (fields (ls_fbc s))
  /\ acceptableTolerance (fields (ls_fbc sk))
     = acceptableTolerance (fields (ls_fbc s))
  /\ acceptableConfidence (fields (ls_fbc sk))
     = acceptableConfidence (fields (ls_fbc s))
  /\ (k = O \/ 0 <= _confidence (fields (ls_fbc sk)) < 2 ^ 32).
Proof.
  intros Hdelay Hi Hnow. induction k as [|k IH]; intros Hfit.
  - simpl. rewrite Z.add_0_r. repeat (split; [reflexivity|]). left.
    reflexivity.
  - cbv zeta in *. rewrite fbcTask_iter_succ, fbcTask_body_unfold.
    cbv zeta. cbn [ls_now ls_fbc].
    destruct IH as (En & E1 & E2 & E3 & E4 & E5 & E6 & E7 & _); [nia|].
    rewrite Hdelay by nia. rewrite En.
    split; [rewrite Nat2Z.inj_succ; ring|].
    rewrite fbcRunContinuous_frame. simpl.
    repeat (split; [assumption|]). right.
    unfold next_confidence. destruct (in_tolerance _ _);
      [apply to_uint_range|lia].
Qed.

(** The background task keeps a fixed cadence and goes on whatever the
    steps report: when each wait moves [now] on by FBC_LOOP_INTERVAL, then
    after [k] turns of its loop [now] is the time read at line 17 plus [k]
    intervals (as long as that fits an unsigned long), and the controller
    still has the capabilities, the goal and the thresholds it was started
    with, its confidence counter within the range of an unsigned int. *)
Theorem fbcTask_cadence (k : nat) (fbc : fbc_t W) (h : stall_hist) (w : W) :
  (forall now w', 0 <= now ->
     now + FBC_LOOP_INTERVAL P < 2 ^ ulong_bits P ->
     fst (taskDelayUntil P now (FBC_LOOP_INTERVAL P) w')
     = now + FBC_LOOP_INTERVAL P) ->
  0 <= FBC_LOOP_INTERVAL P -> 0 <= fst (millis P w) ->
  fst (millis P w) + Z.of_nat k * FBC_LOOP_INTERVAL P < 2 ^ ulong_bits P ->
  let sk := _fbcTask P k fbc h w in
  ls_now sk = fst (millis P w) + Z.of_nat k * FBC_LOOP_INTERVAL P
  /\ sense (ls_fbc sk) = sense fbc
  /\ move (ls_fbc sk) = move fbc
  /\ compute (ls_fbc sk) = compute fbc
  /\ stallDetect (ls_fbc sk) = stallDetect fbc
  /\ goal (fields (ls_fbc sk)) = goal (fields fbc)
  /\ acceptableTolerance (fields (ls_fbc sk))
     = acceptableTolerance (fields fbc)
  /\ acceptableConfidence (fields (ls_fbc sk))
     = acceptableConfidence (fields fbc)
  /\ (k = O \/ 0 <= _confidence (fields (ls_fbc sk)) < 2 ^ 32).
Proof.
  intros Hdelay Hi Hnow Hfit. unfold _fbcTask.
  destruct (millis P w) as [now w1]. simpl fst in *.
  exact (fbcTask_iter_cadence k
           {| ls_now := now; ls_fbc := fbc; ls_hist := h; ls_world := w1 |}
           Hdelay Hi Hnow Hfit).
Qed.

End FurtherProperties.

(** * Confidence and stall in plain arithmetic *)

Section PlainReadings.

Context {W : Type}.
Variable P : platform W.

(** ** The confidence counter counts in-tolerance steps *)

Lemma step_in_tolerance_plain (c : fbc_t W) (w : W) :
  error_in_range c w ->
  0 <= acceptableTolerance (fields c) < 2 ^ 31 ->
  step_in_tolerance c w = error_within c w.
Proof.
  unfold error_in_range, step_in_tolerance, in_tolerance, step_error,
    error_within.
  intros He Ht. rewrite to_uint_c_abs_to_int by lia.
  rewrite (to_uint_small (acceptableTolerance (fields c))) by lia.
  reflexivity.
Qed.

Lemma within_trace_succ (n : nat) (fbc : fbc_t W) (h : stall_hist) (w : W) :
  within_trace P (S n) fbc h w =
  within_trace P n fbc h w
  ++ [error_within (fst (fst (run_continuous P n fbc h w)))
        (snd (run_continuous P n fbc h w))].
Proof.
  simpl. destruct (run_continuous P n fbc h w) as [[fbc1 h1] w1].
  reflexivity.
Qed.

(** Without overflow the trace of the model's test is the trace of the
    plain comparison. *)
Lemma within_trace_tolerance (n : nat) (fbc : fbc_t W) (h : stall_hist)
    (w : W) :
  0 <= acceptableTolerance (fields fbc) < 2 ^ 31 ->
  (forall i, (i < n)%nat ->
     error_in_range (fst (fst (run_continuous P i fbc h w)))
       (snd (run_continuous P i fbc h w))) ->
  tolerance_trace P n fbc h w = within_trace P n fbc h w.
Proof.
  intros Ht. induction n as [|n IH]; intros Hr; [reflexivity|].
  rewrite tolerance_trace_succ, within_trace_succ.
  rewrite IH by (intros i Hi; apply Hr; lia).
  f_equal. f_equal. apply step_in_tolerance_plain.
  - apply Hr. lia.
  - pose proof (run_continuous_members P n fbc h w) as Hm. cbv zeta in Hm.
    destruct Hm as (_ & _ & _ & _ & _ & _ & _ & _ & _ & Htol & _).
    rewrite Htol. exact Ht.
Qed.

(** C2 (amended).  For every controller, after any number of control steps
    and in any state of the stall statics and the world, fbcIsConfident
    returns FBC_STALL exactly when the stall-detect capability reports true
    (whatever the counter), and otherwise 1 (CONFIDENT) exactly when the
    confidence counter is at least [acceptableConfidence] and 0
    (NOT_CONFIDENT) exactly when it is less.  The counter is an unsigned
    int: when the steps started from a counter of 0 (as after fbcInit or
    fbcReset), the tolerance is a non-negative int and [goal - sense()]
    overflowed in no step, the counter is, modulo 2^32, the number [k] of
    consecutive steps, up to the last one, in which
    [|goal - sense()| < acceptableTolerance] held.  So as long as
    [k < 2^32], CONFIDENT means that it held for at least
    [acceptableConfidence] consecutive steps and NOT_CONFIDENT that it held
    for fewer. *)
Theorem fbcIsConfident_after_steps (fbc : fbc_t W) (h : stall_hist) (w : W)
    (n : nat) (h' : stall_hist) (w' : W) :
  FBC_STALL P <> 0 -> FBC_STALL P <> 1 ->
  let fbc' := fst (fst (run_continuous P n fbc h w)) in
  let k := Z.of_nat (trailing (within_trace P n fbc h w)) in
  let r := fst (fst (fbcIsConfident P fbc' h' w')) in
  (r = FBC_STALL P <-> stall_reported fbc' h' w' = true)
  /\ (r = 1 <->
      stall_reported fbc' h' w' = false
      /\ acceptableConfidence (fields fbc') <= _confidence (fields fbc'))
  /\ (r = 0 <->
      stall_reported fbc' h' w' = false
      /\ _confidence (fields fbc') < acceptableConfidence (fields fbc'))
  /\ (_confidence (fields fbc) = 0 ->
      0 <= acceptableTolerance (fields fbc) < 2 ^ 31 ->
      (forall i, (i < n)%nat ->
         error_in_range (fst (fst (run_continuous P i fbc h w)))
           (snd (run_continuous P i fbc h w))) ->
      _confidence (fields fbc') = k mod 2 ^ 32
      /\ acceptableConfidence (fields fbc') = acceptableConfidence (fields fbc)
      /\ (k < 2 ^ 32 ->
          (r = 1 <->
           stall_reported fbc' h' w' = false
           /\ acceptableConfidence (fields fbc) <= k)
          /\ (r = 0 <->
              stall_reported fbc' h' w' = false
              /\ k < acceptableConfidence (fields fbc)))).
Proof.
  intros Hs0 Hs1 fbc' k r.
  assert (Hr : (r = FBC_STALL P <-> stall_reported fbc' h' w' = true)
               /\ (r = 1 <->
                   stall_reported fbc' h' w' = false
                   /\ acceptableConfidence (fields fbc')
                      <= _confidence (fields fbc'))
               /\ (r = 0 <->
                   stall_reported fbc' h' w' = false
                   /\ _confidence (fields fbc')
                      < acceptableConfidence (fields fbc'))).
  { subst r. rewrite fbcIsConfident_result.
    destruct (stall_reported fbc' h' w');
      destruct (Z.leb_spec (acceptableConfidence (fields fbc'))
                  (_confidence (fields fbc'))); simpl;
      repeat split; intros; try tauto; try congruence; try lia;
      match goal with
      | H : _ /\ _ |- _ => destruct H; try discriminate; try lia
      end. }
  destruct Hr as (Hst & Hc & Hn).
  split; [exact Hst|]. split; [exact Hc|]. split; [exact Hn|].
  intros H0 Ht Hrange.
  destruct (run_continuous_confidence P n fbc h w H0) as (Ek & Ea & _).
  rewrite (within_trace_tolerance n fbc h w Ht Hrange) in Ek.
  fold fbc' in Ek, Ea. fold k in Ek. unfold to_uint in Ek.
  split; [exact Ek|]. split; [exact Ea|].
  intros Hk. rewrite Z.mod_small in Ek by lia.
  rewrite <- Ek, <- Ea. split; assumption.
Qed.

Lemma step_in_tolerance_ext (c fbc : fbc_t W) (w : W) :
  sense c = sense fbc -> goal (fields c) = goal (fields fbc) ->
  acceptableTolerance (fields c) = acceptableTolerance (fields fbc) ->
  step_in_tolerance c w = step_in_tolerance fbc w
  /\ error_within c w = error_within fbc w.
Proof.
  unfold step_in_tolerance, in_tolerance, step_error, error_within.
  intros Hs Hg Ht. rewrite Hs, Hg, Ht. split; reflexivity.
Qed.

(** A controller that every step finds within the tolerance: after [n]
    steps from a counter of 0 the counter is [n] modulo 2^32. *)
Lemma run_continuous_always_within (n : nat) (fbc : fbc_t W)
    (h : stall_hist) (w : W) :
  (forall w', step_in_tolerance fbc w' = true) ->
  (forall w', error_within fbc w' = true) ->
  _confidence (fields fbc) = 0 ->
  _confidence (fields (fst (fst (run_continuous P n fbc h w))))
  = Z.of_nat n mod 2 ^ 32
  /\ within_trace P n fbc h w = repeat true n.
Proof.
  intros Hin Hw H0. induction n as [|n IH]; [split; [exact H0|reflexivity]|].
  destruct IH as [IHc IHt].
  pose proof (run_continuous_members P n fbc h w) as Hm. cbv zeta in Hm.
  destruct Hm as (_ & Hs & _ & _ & _ & _ & Hg & _ & _ & Htol & _).
  destruct (step_in_tolerance_ext _ fbc (snd (run_continuous P n fbc h w))
              Hs Hg Htol) as [E1 E2].
  split.
  - rewrite run_continuous_succ.
    destruct (fbcRunContinuous_controller P
                (fst (fst (run_continuous P n fbc h w)))
                (snd (fst (run_continuous P n fbc h w)))
                (snd (run_continuous P n fbc h w))) as (Hc & _).
    rewrite Hc, E1, Hin, IHc. unfold to_uint.
    rewrite Zplus_mod_idemp_l. f_equal. lia.
  - rewrite within_trace_succ, IHt, E2, Hw. symmetry. apply repeat_cons.
Qed.

(** ** One-shot stall reports *)







End PlainReadings.

(** * The properties on the test bench *)

(** C1.  The stall history is not kept per controller: [_prev] and
    [_count] are file-level statics that every controller's check reads and
    writes.  With two controllers whose sensors rest at 50 and 51, the
    check for the second reports a stall right after a check for the first
    (its delta is taken against the first one's reading) and none without
    it. *)
Lemma stall_history_not_isolated :
  ~ stall_history_isolated left_fbc right_fbc stall_hist_init (bench_world []).
Proof.
  unfold stall_history_isolated. intros H.
  apply (f_equal (fun x => fst (fst x))) in H. vm_compute in H.
  discriminate H.
Qed.

Lemma stall_history_shared_witness :
  at_deadband (fields left_fbc) = false
  /\ fst (fst (fbcStallDetect left_fbc stall_hist_init (bench_world [])))
     = false
  /\ snd (fst (fbcStallDetect left_fbc stall_hist_init (bench_world [])))
     = {| _prev := 50; _count := 0 |}
  /\ fst (fst (fbcStallDetect right_fbc {| _prev := 50; _count := 0 |}
                 (bench_world []))) = true.
Proof.
  pose proof (stall_history_shared left_fbc right_fbc stall_hist_init
                (bench_world []) eq_refl eq_refl) as H.
  vm_compute in H. destruct H as [H1 H2].
  split; [reflexivity|]. split; [reflexivity|].
  split; [exact H1|exact (H2 eq_refl)].
Defined.

Lemma fbcGenerateOutput_deadband_witness :
  fst (fst (fbcGenerateOutput bench_platform converging_fbc
              (bench_world [97]))) = 5
  /\ fst (fst (fbcGenerateOutput bench_platform converging_fbc
                 (bench_world [103]))) = -5
  /\ fst (fst (fbcGenerateOutput bench_platform converging_fbc
                 (bench_world [100]))) = 0.
Proof.
  split; [|split].
  - apply (fbcGenerateOutput_deadband bench_platform converging_fbc
             (bench_world [97]) (bench_world []) (bench_world []) 97 3
             eq_refl eq_refl).
    split; reflexivity.
  - apply (fbcGenerateOutput_deadband bench_platform converging_fbc
             (bench_world [103]) (bench_world []) (bench_world []) 103 (-3)
             eq_refl eq_refl).
    split; reflexivity.
  - apply (fbcGenerateOutput_deadband bench_platform converging_fbc
             (bench_world [100]) (bench_world []) (bench_world []) 100 0
             eq_refl eq_refl).
    reflexivity.
Defined.

(** A call exempted by line 32 (the last output is the positive dead-band
    bound) leaves [_prev] at 0 while the sensor reads 50. *)
Lemma prev_not_updated_when_exempt :
  ~ prev_tracks_sensor (with_output stuck_fbc 5) stall_hist_init
      (bench_world []).
Proof. unfold prev_tracks_sensor. vm_compute. discriminate. Qed.

Lemma fbcStallDetect_prev_witness :
  (let '(r, h1, _) :=
     fbcStallDetect (with_output stuck_fbc 5) stall_hist_init (bench_world [])
   in r = false /\ _prev h1 = 0 /\ _count h1 = 0)
  /\ (let '(r, h1, _) :=
        fbcStallDetect stuck_fbc stall_hist_init (bench_world [])
      in r = false /\ _prev h1 = 50 /\ _count h1 = 0)
  /\ (let '(r, h1, _) :=
        fbcStallDetect stuck_fbc {| _prev := 50; _count := 2 |}
          (bench_world [])
      in r = true /\ _prev h1 = 0 /\ _count h1 = 0).
Proof.
  pose proof (fbcStallDetect_prev (with_output stuck_fbc 5) stall_hist_init
                (bench_world [])) as He.
  pose proof (fbcStallDetect_prev stuck_fbc stall_hist_init (bench_world []))
    as Hn.
  pose proof (fbcStallDetect_prev stuck_fbc {| _prev := 50; _count := 2 |}
                (bench_world [])) as Hs.
  vm_compute in He, Hn, Hs.
  destruct He as (He & _ & _). destruct Hn as (_ & _ & Hn).
  destruct Hs as (_ & Hs & _).
  destruct (He eq_refl) as (E1 & E2 & E3 & _).
  destruct (Hn eq_refl eq_refl) as (N1 & N2).
  destruct (Hs eq_refl eq_refl) as (S1 & S2).
  split; [|split].
  - split; [exact E1|]. split; [exact E2|exact E3].
  - split; [reflexivity|]. split; [exact N1|exact N2].
  - split; [reflexivity|]. split; [exact S1|exact S2].
Defined.

(** With a null stallDetect pointer fbcIsConfident answers CONFIDENT in a
    state in which fbcStallDetect would report a stall. *)
Lemma default_stall_not_applied :
  ~ default_stall_applies bench_platform resting_fbc stall_hist_init
      (bench_world []).
Proof.
  unfold default_stall_applies. intros H. specialize (H eq_refl).
  vm_compute in H. discriminate H.
Qed.

Lemma fbcIsConfident_null_stallDetect_witness :
  fbcIsConfident bench_platform resting_fbc stall_hist_init (bench_world [])
  = (1, stall_hist_init, bench_world [])
  /\ fst (fst (fbcIsConfident bench_platform resting_fbc stall_hist_init
                 (bench_world []))) <> FBC_STALL bench_platform
  /\ fst (fst (fbcIsConfident bench_platform resting_stall_fbc
                 stall_hist_init (bench_world [])))
     = FBC_STALL bench_platform.
Proof.
  destruct (fbcIsConfident_null_stallDetect bench_platform resting_fbc
              stall_hist_init (bench_world [])) as [Hnull _].
  destruct (fbcIsConfident_null_stallDetect bench_platform resting_stall_fbc
              stall_hist_init (bench_world [])) as [_ Hbuiltin].
  destruct (Hnull eq_refl) as [Hres Hne].
  split; [exact Hres|]. split.
  - apply Hne; discriminate.
  - rewrite (Hbuiltin eq_refl). reflexivity.
Defined.


Lemma fbcSetGoal_spec_witness :
  fbcSetGoal bench_platform (Some converging_fbc) 100 (bench_world [])
  = (true, Some converging_fbc, bench_world [])
  /\ (let '(r, fbc1, _) :=
        fbcSetGoal bench_platform (Some converging_fbc) 40 (bench_world [])
      in
      r = true
      /\ option_map (fun c => goal (fields c)) fbc1 = Some 40
      /\ option_map (fun c => _prevExecution (fields c)) fbc1 = Some 1000)
  /\ fst (fst (fbcSetGoal bench_platform None 40 (bench_world []))) = false.
Proof.
  destruct (fbcSetGoal_spec bench_platform (Some converging_fbc) 100
              (bench_world [])) as (_ & Hsame & _ & _).
  destruct (fbcSetGoal_spec bench_platform (Some converging_fbc) 40
              (bench_world [])) as (_ & _ & Hnew & _).
  destruct (fbcSetGoal_spec bench_platform None 40 (bench_world []))
    as (Hnull & _).
  split; [exact (Hsame converging_fbc eq_refl eq_refl)|]. split.
  - rewrite (Hnew converging_fbc eq_refl); [|vm_compute; discriminate].
    split; [reflexivity|]. split; reflexivity.
  - apply Hnull. reflexivity.
Defined.

(** fbcInit does not install a controller reset: the one that the
    structure held before the call is gone after it. *)
Lemma fbcInit_drops_resetController :
  ~ init_installs_resetController bench_blank bench_move bench_sense
      (bench_world []).
Proof.
  unfold init_installs_resetController. intros H.
  apply H; [discriminate|reflexivity].
Qed.

Lemma fbcInit_spec_witness :
  resetController bench_blank = Some bench_resetController
  /\ resetController (bench_fbc bench_sense None 5 3) = None
  /\ compute (bench_fbc bench_sense None 5 3) = compute bench_blank
  /\ _confidence (fields (bench_fbc bench_sense None 5 3)) = 0
  /\ goal (fields (bench_fbc bench_sense None 5 3)) = 0.
Proof.
  pose proof (fbcInit_spec bench_blank bench_move bench_sense None None
                (-5) 5 5 3 (bench_world [])) as H.
  unfold bench_fbc.
  destruct (fbcInit bench_blank bench_move bench_sense None None (-5) 5 5 3
              (bench_world [])) as [fbc1 w1].
  simpl fst.
  destruct H as (_ & _ & _ & _ & _ & _ & _ & _ & Hrc & Hcp & _ & _ & Hcf
                 & Hg & _).
  split; [reflexivity|]. split; [exact Hrc|]. split; [exact Hcp|].
  split; [exact Hcf|exact Hg].
Defined.

(** With [acceptableConfidence = 0] and fbcStallDetect installed, the
    first query after fbcInit answers FBC_STALL, not CONFIDENT, when the
    sensor rests at 0. *)
Lemma stalled_right_after_init :
  fst (fst (fbcIsConfident bench_platform
              (fst (fbcInit bench_blank bench_move (fixed_sense 0) None
                      (Some builtin_stallDetect) (-5) 5 8 0 (bench_world [])))
              stall_hist_init (bench_world []))) <> 1.
Proof. vm_compute. discriminate. Qed.

Lemma zero_threshold_confident_witness :
  fst (fst (fbcIsConfident bench_platform
              (fst (fbcInit bench_blank bench_move bench_sense None None
                      (-5) 5 5 0 (bench_world [])))
              stall_hist_init (bench_world []))) = 1
  /\ fst (fst (fbcIsConfident bench_platform
                 (fst (fbcInit bench_blank bench_move (fixed_sense 0) None
                         (Some builtin_stallDetect) (-5) 5 8 0
                         (bench_world [])))
                 stall_hist_init (bench_world [])))
     = FBC_STALL bench_platform
  /\ fst (fst (fbcIsConfident bench_platform
                 (fst (fbcReset resting_fbc (bench_world [])))
                 stall_hist_init (bench_world []))) = 1
  /\ exists res : completion bench,
       fbcRunCompletion bench_platform 1 (with_goal resting_fbc 100) 0
         stall_hist_init (bench_world []) = Some res
       /\ commands (snd res) = [100].
Proof.
  destruct (zero_threshold_confident bench_platform bench_blank bench_move
              bench_sense None None (-5) 5 5 stall_hist_init (bench_world [])
              (bench_world [])) as (Hinit & _ & _).
  destruct (zero_threshold_confident bench_platform bench_blank bench_move
              (fixed_sense 0) None (Some builtin_stallDetect) (-5) 5 8
              stall_hist_init (bench_world []) (bench_world []))
    as (Hstall & _ & _).
  destruct (zero_threshold_confident bench_platform resting_fbc bench_move
              bench_sense None None 0 0 0 stall_hist_init (bench_world [])
              (bench_world [])) as (_ & Hreset & _).
  destruct (zero_threshold_confident bench_platform (with_goal resting_fbc 100)
              bench_move bench_sense None None 0 0 0 stall_hist_init
              (bench_world []) (bench_world [])) as (_ & _ & Hrun).
  split; [exact Hinit|]. split; [exact Hstall|].
  split; [exact (Hreset eq_refl)|].
  assert (Hs : FBC_STALL bench_platform <> 0) by discriminate.
  destruct (Hrun eq_refl Hs 0%nat 0) as [_ Hsome].
  eexists. split; [exact Hsome|reflexivity].
Defined.

Lemma fbcStallDetect_uint_max_witness :
  fst (fst (fbcStallDetect
              (bench_fbc (fixed_sense 50) (Some builtin_stallDetect) 8
                 (2 ^ 32 - 1))
              {| _prev := 50; _count := 2 ^ 32 - 1 |} (bench_world [])))
  = false.
Proof.
  apply (fbcStallDetect_uint_max
           (bench_fbc (fixed_sense 50) (Some builtin_stallDetect) 8
              (2 ^ 32 - 1))).
  reflexivity.
Defined.

Lemma fbcRunCompletion_flag_witness :
  exists (fbc' : fbc_t bench) (h' : stall_hist) (w' : bench),
    fbcRunCompletion bench_platform 5 converging_fbc 30 stall_hist_init
      converging_world = Some (false, fbc', h', w')
    /\ _confidence (fields fbc') = 1
    /\ clock w' = 1040.
Proof.
  destruct (fbcRunCompletion bench_platform 5 converging_fbc 30
              stall_hist_init converging_world) as [[[[flag fbc'] h'] w']|]
    eqn:E; [|vm_compute in E; discriminate E].
  destruct (fbcRunCompletion_flag bench_platform 5 converging_fbc 30
              stall_hist_init converging_world flag fbc' h' w' E)
    as (k & sk & Hk & Hi & Hflag & _ & _).
  exists fbc', h', w'.
  vm_compute in E. injection E as <- <- <- <-.
  split; [reflexivity|]. split; reflexivity.
Defined.

(** ** The further properties on the test bench *)

Lemma run_continuous_commands_witness :
  exists cmds : list Z,
    commands (snd (run_continuous bench_platform 5 converging_fbc
                     stall_hist_init converging_world))
    = cmds ++ []
    /\ length cmds = 5%nat
    /\ Forall (outside_deadband (fields converging_fbc)) cmds.
Proof.
  apply (run_continuous_commands bench_platform commands converging_fbc).
  - reflexivity.
  - intros w. unfold converging_fbc, with_goal, bench_fbc. simpl.
    unfold bench_sense. destruct (readings w); reflexivity.
  - reflexivity.
  - reflexivity.
  - intros f H. discriminate H.
Defined.

Lemma in_tolerance_no_overflow_witness :
  step_in_tolerance converging_fbc (bench_world [97]) = true
  /\ _confidence
       (fields (snd (fst (fst (fbcRunContinuous bench_platform
                                 converging_fbc stall_hist_init
                                 (bench_world [97])))))) = 1.
Proof.
  apply (in_tolerance_no_overflow bench_platform converging_fbc
           stall_hist_init (bench_world [97])).
  - vm_compute. split; reflexivity.
  - vm_compute. split; [discriminate|reflexivity].
Defined.

Lemma stuck_cycle_no_overflow_witness :
  stuck_cycle stuck_fbc stuck_hist (bench_world []) = true
  /\ stuck_cycle stuck_fbc stall_hist_init (bench_world []) = false.
Proof.
  assert (Hr : 0 <= acceptableTolerance (fields stuck_fbc) < 2 ^ 31)
    by (vm_compute; split; [discriminate|reflexivity]).
  split.
  - apply (stuck_cycle_no_overflow stuck_fbc stuck_hist (bench_world []));
      [vm_compute; split; reflexivity|exact Hr|reflexivity].
  - apply (stuck_cycle_no_overflow stuck_fbc stall_hist_init
             (bench_world []));
      [vm_compute; split; reflexivity|exact Hr|reflexivity].
Defined.

Lemma fbcStallDetect_reports_iff_witness :
  fst (fst (fbcStallDetect stuck_fbc {| _prev := 50; _count := 2 |}
              (bench_world []))) = true
  /\ _count (snd (fst (fbcStallDetect stuck_fbc
                         {| _prev := 50; _count := 7 |} (bench_world []))))
     <= 2.
Proof.
  assert (Hn : 0 <= acceptableConfidence (fields stuck_fbc))
    by (vm_compute; discriminate).
  split.
  - apply (fbcStallDetect_reports_iff stuck_fbc
             {| _prev := 50; _count := 2 |} (bench_world []) Hn).
    split; reflexivity.
  - apply (fbcStallDetect_reports_iff stuck_fbc
             {| _prev := 50; _count := 7 |} (bench_world []) Hn).
Defined.

Lemma fixed_sensor_stall_period_witness :
  stall_checks 8 stuck_fbc stall_hist_init (bench_world [])
  = ([false; false; false; true; false; false; false; true],
     stall_hist_init, bench_world []).
Proof.
  assert (Hs : forall w, sense stuck_fbc w = (50, w)) by reflexivity.
  assert (Hr : 0 <= acceptableConfidence (fields stuck_fbc) < 2 ^ 32 - 1)
    by (vm_compute; split; [discriminate|reflexivity]).
  assert (Ha : min_stuck (fields stuck_fbc) <= stall_delta stall_hist_init 50)
    by (vm_compute; discriminate).
  exact (fixed_sensor_stall_period stuck_fbc 50 Hs eq_refl Hr Ha 2
           (bench_world [])).
Defined.

Lemma fbcRunCompletion_min_steps_witness :
  fbcRunCompletion bench_platform 2 converging_fbc 0 stall_hist_init
    (bench_world [100; 100]) = None.
Proof.
  apply (fbcRunCompletion_min_steps bench_platform 2 converging_fbc 0
           stall_hist_init (bench_world [100; 100]));
    try reflexivity.
  left. reflexivity.
Defined.

Lemma zero_tolerance_never_confident_witness :
  step_in_tolerance (bench_fbc bench_sense None 0 3) (bench_world []) = false
  /\ fbcRunCompletion bench_platform 50 (bench_fbc bench_sense None 0 3) 0
       stall_hist_init (bench_world []) = None.
Proof.
  destruct (zero_tolerance_never_confident bench_platform 50
              (bench_fbc bench_sense None 0 3) 0 stall_hist_init
              (bench_world []) eq_refl eq_refl eq_refl)
    as (Hin & _ & Hnone & _).
  split; [exact Hin|exact (Hnone eq_refl)].
Defined.

Lemma fbcRunCompletion_terminates_witness :
  exists res : completion bench,
    fbcRunCompletion bench_platform 3
      (bench_fbc bench_sense None 0 3) 30 stall_hist_init (bench_world [])
    = Some res.
Proof.
  apply (fbcRunCompletion_terminates bench_platform 3
           (bench_fbc bench_sense None 0 3) 30 stall_hist_init
           (bench_world [])).
  - intros now' w' _ _. reflexivity.
  - reflexivity.
  - discriminate.
  - vm_compute. discriminate.
  - vm_compute. discriminate.
  - reflexivity.
  - vm_compute. discriminate.
Defined.


Lemma fbcSetGoal_keeps_confidence_witness :
  exists c' : fbc_t bench,
    snd (fst (fbcSetGoal bench_platform
                (Some (fst (fst (run_continuous bench_platform 5
                                   converging_fbc stall_hist_init
                                   converging_world))))
                0 (bench_world [])))
    = Some c'
    /\ goal (fields c') = 0
    /\ fst (fst (fbcIsConfident bench_platform c' stall_hist_init
                   (bench_world []))) = 1.
Proof.
  destruct (fbcSetGoal_keeps_confidence bench_platform
              (fst (fst (run_continuous bench_platform 5 converging_fbc
                           stall_hist_init converging_world)))
              0 (bench_world []) stall_hist_init (bench_world [])
              (or_introl eq_refl)) as (c' & Hc & Hg & _ & Hsame).
  exists c'. split; [exact Hc|]. split; [exact Hg|].
  rewrite Hsame. reflexivity.
Defined.

Lemma fbcRunCompletion_follows_task_witness :
  loop_iter bench_platform 4 0 1000
    {| ls_now := 1000; ls_fbc := converging_fbc; ls_hist := stall_hist_init;
       ls_world := converging_world |}
  = Some (fbcTask_iter bench_platform 4
            {| ls_now := 1000; ls_fbc := converging_fbc;
               ls_hist := stall_hist_init; ls_world := converging_world |}).
Proof.
  destruct (loop_iter bench_platform 4 0 1000
              {| ls_now := 1000; ls_fbc := converging_fbc;
                 ls_hist := stall_hist_init; ls_world := converging_world |})
    as [sk|] eqn:E; [|vm_compute in E; discriminate E].
  rewrite (fbcRunCompletion_follows_task bench_platform 4 0 1000 _ sk E).
  reflexivity.
Defined.

Lemma fbcTask_cadence_witness :
  ls_now (_fbcTask bench_platform 7 converging_fbc stall_hist_init
            converging_world) = 1140
  /\ goal (fields (ls_fbc (_fbcTask bench_platform 7 converging_fbc
                             stall_hist_init converging_world))) = 100.
Proof.
  destruct (fbcTask_cadence bench_platform 7 converging_fbc stall_hist_init
              converging_world) as (Hn & _ & _ & _ & _ & Hg & _).
  - intros now w' _ _. reflexivity.
  - vm_compute. discriminate.
  - vm_compute. discriminate.
  - reflexivity.
  - split; [exact Hn|exact Hg].
Defined.

(** ** Confidence and stall in plain arithmetic, on the test bench *)

Lemma fbcIsConfident_after_steps_witness :
  within_trace bench_platform 5 converging_fbc stall_hist_init
    overshooting_world = [false; false; true; true; true]
  /\ _confidence
       (fields (fst (fst (run_continuous bench_platform 5 converging_fbc
                            stall_hist_init overshooting_world)))) = 3
  /\ fst (fst (fbcIsConfident bench_platform
                 (fst (fst (run_continuous bench_platform 5 converging_fbc
                              stall_hist_init overshooting_world)))
                 stall_hist_init (bench_world []))) = 1
  /\ fst (fst (fbcIsConfident bench_platform
                 (fst (fst (run_continuous bench_platform 4 converging_fbc
                              stall_hist_init overshooting_world)))
                 stall_hist_init (bench_world []))) = 0.
Proof.
  assert (H0 : FBC_STALL bench_platform <> 0) by discriminate.
  assert (H1 : FBC_STALL bench_platform <> 1) by discriminate.
  assert (Ht : 0 <= acceptableTolerance (fields converging_fbc) < 2 ^ 31)
    by (vm_compute; split; [discriminate|reflexivity]).
  assert (Hr : forall i, (i < 5)%nat ->
             error_in_range
               (fst (fst (run_continuous bench_platform i converging_fbc
                            stall_hist_init overshooting_world)))
               (snd (run_continuous bench_platform i converging_fbc
                       stall_hist_init overshooting_world))).
  { intros i Hi. destruct i as [|[|[|[|[|i]]]]]; try lia;
      vm_compute; split; reflexivity. }
  destruct (fbcIsConfident_after_steps bench_platform converging_fbc
              stall_hist_init overshooting_world 5 stall_hist_init
              (bench_world []) H0 H1) as (_ & _ & _ & H5).
  destruct (fbcIsConfident_after_steps bench_platform converging_fbc
              stall_hist_init overshooting_world 4 stall_hist_init
              (bench_world []) H0 H1) as (_ & _ & _ & H4).
  destruct (H5 eq_refl Ht Hr) as (Ek & _ & H5').
  destruct (H4 eq_refl Ht (fun i Hi => Hr i (Nat.lt_lt_succ_r _ _ Hi)))
    as (_ & _ & H4').
  destruct (H5' eq_refl) as (Hc & _).
  destruct (H4' eq_refl) as (_ & Hn).
  split; [reflexivity|]. split; [exact Ek|]. split.
  - apply Hc. split; [reflexivity|]. vm_compute. discriminate.
  - apply Hn. split; reflexivity.
Defined.

(** C2.  After 2^32 steps in a row within the tolerance, far more than the
    three that [acceptableConfidence] asks for, the confidence counter has
    wrapped to 0 and fbcIsConfident answers NOT_CONFIDENT. *)
Lemma confidence_lost_after_wrap :
  within_trace bench_platform wrap_steps steady_fbc stall_hist_init
    (bench_world []) = repeat true wrap_steps
  /\ acceptableConfidence
       (fields (fst (fst (run_continuous bench_platform wrap_steps
                            steady_fbc stall_hist_init (bench_world [])))))
     = 3
  /\ _confidence
       (fields (fst (fst (run_continuous bench_platform wrap_steps
                            steady_fbc stall_hist_init (bench_world [])))))
     = 0
  /\ fst (fst (fbcIsConfident bench_platform
                 (fst (fst (run_continuous bench_platform wrap_steps
                              steady_fbc stall_hist_init (bench_world []))))
                 stall_hist_init (bench_world []))) = 0.
Proof.
  assert (Hn : Z.of_nat wrap_steps = 2 ^ 32)
    by (unfold wrap_steps; apply Z2Nat.id; lia).
  generalize dependent wrap_steps. intros n Hn.
  destruct (run_continuous_always_within bench_platform n steady_fbc
              stall_hist_init (bench_world []))
    as [Hc Ht]; try reflexivity.
  pose proof (run_continuous_members bench_platform n steady_fbc
                stall_hist_init (bench_world [])) as Hm.
  cbv zeta in Hm.
  destruct Hm as (_ & _ & _ & Hsd & _ & _ & _ & _ & _ & _ & Ha & _).
  rewrite Hn in Hc. change (2 ^ 32 mod 2 ^ 32) with 0 in Hc.
  split; [exact Ht|]. split; [rewrite Ha; reflexivity|].
  split; [exact Hc|].
  rewrite fbcIsConfident_result. unfold stall_reported.
  rewrite Hsd, Ha, Hc. reflexivity.
Qed.



